(** * Azure connectors of multicloud_pipeline: a shallow embedding

    Source: src/multicloud_pipeline/connectors/azure_connectors.py

    The connectors translate constructor arguments into engine
    configuration keys, URLs and option calls.  The engine (Spark) is an
    external collaborator: it is modelled by the configuration map that
    [spark.conf.set] writes and by the log of the terminal calls
    ([load], [save], [start]) it receives, each with the builder object
    as the connector has configured it.

    Conventions of the embedding:
    - a method that touches the session is a computation in [M], a state
      and exception monad over [SparkSession]; a constructor that only
      builds fields returns a [result];
    - an optional argument is an [option]; default values of the
      Python signatures are passed explicitly by the caller;
    - [logger.info] calls have no effect on the session and are left out;
    - the stream builder's own argument checks ([outputMode],
      [trigger]) belong to the engine's client library and are a
      parameter ([StreamChecks]); a dict unpacked into [.options] as
      keyword arguments fails on a key named self, as Python binds it;
    - the methods are embedded as they are written, one by one; what
      importing the module does is modelled apart, in [import_module]. *)

From stdpp Require Import base strings gmap list.

(** ** Python values, exceptions, results *)

(** The values that flow through the connectors: [None] and [str]. *)
Inductive pyval : Type :=
  | PNone
  | PStr (s : string).

#[global] Instance pyval_eq_dec : EqDecision pyval.
Proof. solve_decision. Defined.

(** [str(v)], as an f-string placeholder formats a value. *)
Definition py_str (v : pyval) : string :=
  match v with
  | PNone => "None"
  | PStr s => s
  end.

(** Truthiness of an [Optional[str]] argument. *)
Definition str_truthy (s : option string) : bool :=
  match s with
  | None => false
  | Some EmptyString => false
  | Some (String _ _) => true
  end.

Definition opt_str_val (s : option string) : pyval :=
  match s with
  | None => PNone
  | Some x => PStr x
  end.

Inductive exn : Type :=
  | ValueError (msg : string)
  | TypeError (msg : string)
  | AttributeError (msg : string)
  | KeyError (key : string)
  | SyntaxError (msg : string)
  | NameError (name : string).

Inductive result (A : Type) : Type :=
  | Return (a : A)
  | Raise (e : exn).
Arguments Return {A} a.
Arguments Raise {A} e.

(** ** Python dicts

    A dict that is only looked up (a constructor's [config]) is a
    [gmap string pyval].  A dict that is iterated ([options],
    [connection_properties], [eh_conf]) is the list of its items in
    insertion order. *)
Module PyDict.

Definition items : Type := list (string * pyval).

Definition keys (d : items) : list string := d.*1.

(** A dict has no two items with one key. *)
Definition wf (d : items) : Prop := NoDup (keys d).

Fixpoint get (d : items) (k : string) : option pyval :=
  match d with
  | [] => None
  | (k', v) :: d' => if decide (k' = k) then Some v else get d' k
  end.

(** [d[k] = v]: an existing key keeps its position. *)
Fixpoint set (d : items) (k : string) (v : pyval) : items :=
  match d with
  | [] => [(k, v)]
  | (k', v') :: d' =>
      if decide (k' = k) then (k', v) :: d' else (k', v') :: set d' k v
  end.

(** [d.update(o)]. *)
Definition update (d o : items) : items :=
  foldl (λ acc kv, set acc kv.1 kv.2) d o.

(** Truthiness of an [Optional[Dict]] argument given as items. *)
Definition truthy (o : option items) : bool :=
  match o with
  | Some (_ :: _) => true
  | _ => false
  end.

(** Truthiness of an [Optional[Dict]] argument given as a map. *)
Definition map_truthy (c : option (gmap string pyval)) : bool :=
  match c with
  | Some m => bool_decide (m ≠ ∅)
  | None => false
  end.

(** [config or {}]. *)
Definition or_empty (c : option (gmap string pyval)) : gmap string pyval :=
  match c with
  | Some m => if map_truthy c then m else ∅
  | None => ∅
  end.

(** [k in m]. *)
Definition contains (m : gmap string pyval) (k : string) : bool :=
  bool_decide (is_Some (m !! k)).

(** [m.get(k, dflt)]. *)
Definition get_default (m : gmap string pyval) (k : string) (dflt : pyval)
  : pyval :=
  default dflt (m !! k).

End PyDict.

(** ** The engine *)

(** [spark.read] / [spark.readStream] builder. *)
Record DataFrameReader : Type := mkReader {
  reader_streaming : bool;
  reader_format : string;
  reader_options : PyDict.items   (* the [option] calls, in call order *)
}.

(** A DataFrame is known by the load that produced it. *)
Inductive DataFrame : Type :=
  | Loaded (r : DataFrameReader) (path : option string).

(** [df.write] builder. *)
Record DataFrameWriter : Type := mkWriter {
  writer_df : DataFrame;
  writer_format : string;
  writer_mode : option string;
  writer_partition_by : option (list string);
  writer_options : PyDict.items
}.

(** [df.writeStream] builder. *)
Record DataStreamWriter : Type := mkStreamWriter {
  swriter_df : DataFrame;
  swriter_format : string;
  swriter_output_mode : option string;
  swriter_options : PyDict.items;
  swriter_trigger : option string
}.

Inductive EngineCall : Type :=
  | CallLoad (r : DataFrameReader) (path : option string)
  | CallSave (w : DataFrameWriter) (path : option string)
  | CallStart (w : DataStreamWriter).

(** The session: its runtime configuration and the terminal calls made. *)
Record SparkSession : Type := mkSpark {
  spark_conf : gmap string pyval;
  spark_calls : list EngineCall
}.

(** The value the engine ends up with for option [k] after a sequence of
    [option] calls: the last call for [k] wins. *)
Definition effective_option (calls : PyDict.items) (k : string)
  : option pyval :=
  PyDict.get (reverse calls) k.

(** ** Computations: session state and exceptions *)

Definition M (A : Type) : Type := SparkSession → result A * SparkSession.

#[global] Instance M_ret : MRet M := λ A a s, (Return a, s).
#[global] Instance M_bind : MBind M := λ A B f m s,
  match m s with
  | (Return a, s') => f a s'
  | (Raise e, s') => (Raise e, s')
  end.

Definition raise {A : Type} (e : exn) : M A := λ s, (Raise e, s).

(** Exceptions alone, for builder chains that touch no session state. *)
#[global] Instance result_ret : MRet result := λ A a, Return a.
#[global] Instance result_bind : MBind result := λ A B f r,
  match r with
  | Return a => f a
  | Raise e => Raise e
  end.

(** A builder chain inside a session computation: its exception, if
    any, is raised with the session as it is. *)
Definition lift_result {A : Type} (r : result A) : M A := λ s, (r, s).

(** [spark.conf.set(k, v)] *)
Definition conf_set (k : string) (v : pyval) : M unit := λ s,
  (Return (), mkSpark (<[k:=v]> (spark_conf s)) (spark_calls s)).

Definition engine_call (c : EngineCall) : M unit := λ s,
  (Return (), mkSpark (spark_conf s) (spark_calls s ++ [c])).

(** [m[k]] *)
Definition getitem (m : gmap string pyval) (k : string) : M pyval :=
  match m !! k with
  | Some v => mret v
  | None => raise (KeyError k)
  end.

(** Builder methods. *)
Definition spark_read_format (fmt : string) : DataFrameReader :=
  mkReader false fmt [].

Definition spark_readStream_format (fmt : string) : DataFrameReader :=
  mkReader true fmt [].

Definition reader_option (k : string) (v : pyval) (r : DataFrameReader)
  : DataFrameReader :=
  mkReader (reader_streaming r) (reader_format r) (reader_options r ++ [(k, v)]).

(** Unpacking a dict as keyword arguments of a method declared
    [def options(self, **options)]: a key named self collides with the
    method's own first parameter, and the call raises TypeError before
    the method body runs. *)
Definition kw_binds_self (kw : PyDict.items) : bool :=
  bool_decide ("self" ∈ PyDict.keys kw).

(** [reader.options] called with the dict unpacked as keyword arguments *)
Definition reader_options_kw (kw : PyDict.items) (r : DataFrameReader)
  : result DataFrameReader :=
  if kw_binds_self kw
  then Raise (TypeError
                "DataStreamReader.options() got multiple values for argument 'self'")
  else Return (foldl (λ acc kv, reader_option kv.1 kv.2 acc) r kw).

Definition reader_load (path : option string) (r : DataFrameReader)
  : M DataFrame :=
  engine_call (CallLoad r path);; mret (Loaded r path).

Definition df_write_format (df : DataFrame) (fmt : string) : DataFrameWriter :=
  mkWriter df fmt None None [].

Definition writer_set_mode (m : string) (w : DataFrameWriter) : DataFrameWriter :=
  mkWriter (writer_df w) (writer_format w) (Some m)
           (writer_partition_by w) (writer_options w).

Definition writer_partitionBy (cols : list string) (w : DataFrameWriter)
  : DataFrameWriter :=
  mkWriter (writer_df w) (writer_format w) (writer_mode w)
           (Some cols) (writer_options w).

Definition writer_option (k : string) (v : pyval) (w : DataFrameWriter)
  : DataFrameWriter :=
  mkWriter (writer_df w) (writer_format w) (writer_mode w)
           (writer_partition_by w) (writer_options w ++ [(k, v)]).

Definition writer_save (path : option string) (w : DataFrameWriter) : M unit :=
  engine_call (CallSave w path).

(** [if options: for key, value in options.items(): b = b.option(key, value)] *)
Definition reader_apply_options (options : option PyDict.items)
    (r : DataFrameReader) : DataFrameReader :=
  match options with
  | Some o => if PyDict.truthy options
              then foldl (λ acc kv, reader_option kv.1 kv.2 acc) r o
              else r
  | None => r
  end.

Definition writer_apply_options (options : option PyDict.items)
    (w : DataFrameWriter) : DataFrameWriter :=
  match options with
  | Some o => if PyDict.truthy options
              then foldl (λ acc kv, writer_option kv.1 kv.2 acc) w o
              else w
  | None => w
  end.

(** ** class AzureConnector *)

Record AzureConnector : Type := mkAzureConnector {
  account_name : string;
  config : gmap string pyval
}.

Definition AzureConnector_init (account_name : string)
    (config : option (gmap string pyval)) : AzureConnector :=
  mkAzureConnector account_name (PyDict.or_empty config).

Definition configure_auth (self : AzureConnector) (auth_type : pyval) : M unit :=
  if bool_decide (auth_type = PStr "account_key")
     && PyDict.contains (config self) "account_key" then
    v ← getitem (config self) "account_key";
    conf_set ("fs.azure.account.key." +:+ account_name self
                +:+ ".dfs.core.windows.net") v
  else if bool_decide (auth_type = PStr "sas_token")
          && PyDict.contains (config self) "sas_token" then
    c ← getitem (config self) "container";
    v ← getitem (config self) "sas_token";
    conf_set ("fs.azure.sas." +:+ py_str c +:+ "." +:+ account_name self
                +:+ ".blob.core.windows.net") v
  else if bool_decide (auth_type = PStr "managed_identity") then
    conf_set "fs.azure.account.auth.type" (PStr "OAuth");;
    conf_set "fs.azure.account.oauth.provider.type"
             (PStr "org.apache.hadoop.fs.azurebfs.oauth2.MsiTokenProvider")
  else mret ().

(** [config.get("auth_type", "account_key") if config else "account_key"] *)
Definition auth_type_of (config : option (gmap string pyval)) : pyval :=
  match config with
  | Some m => if PyDict.map_truthy config
              then PyDict.get_default m "auth_type" (PStr "account_key")
              else PStr "account_key"
  | None => PStr "account_key"
  end.

(** ** class AzureBlobConnector(AzureConnector) *)

Record AzureBlobConnector : Type := mkBlob {
  blob_base : AzureConnector;
  blob_container : string
}.

Definition AzureBlobConnector_init (account_name container : string)
    (config : option (gmap string pyval)) : M AzureBlobConnector :=
  let base := AzureConnector_init account_name config in
  configure_auth base (auth_type_of config);;
  mret (mkBlob base container).

Definition blob_full_path (self : AzureBlobConnector) (path : string) : string :=
  "wasbs://" +:+ blob_container self +:+ "@"
    +:+ account_name (blob_base self) +:+ ".blob.core.windows.net/" +:+ path.

Definition AzureBlobConnector_read (self : AzureBlobConnector)
    (path format : string) (options : option PyDict.items) : M DataFrame :=
  let full_path := blob_full_path self path in
  let reader := spark_read_format format in
  let reader := reader_apply_options options reader in
  reader_load (Some full_path) reader.

Definition AzureBlobConnector_write (self : AzureBlobConnector)
    (df : DataFrame) (path format mode : string)
    (options : option PyDict.items) : M unit :=
  let full_path := blob_full_path self path in
  let writer := writer_set_mode mode (df_write_format df format) in
  let writer := writer_apply_options options writer in
  writer_save (Some full_path) writer.

(** ** class AzureDataLakeGen2Connector(AzureConnector) *)

Record AzureDataLakeGen2Connector : Type := mkDataLake {
  adls_base : AzureConnector;
  adls_container : string
}.

Definition AzureDataLakeGen2Connector_init (account_name container : string)
    (config : option (gmap string pyval)) : M AzureDataLakeGen2Connector :=
  let base := AzureConnector_init account_name config in
  configure_auth base (auth_type_of config);;
  mret (mkDataLake base container).

Definition adls_full_path (self : AzureDataLakeGen2Connector) (path : string)
  : string :=
  "abfss://" +:+ adls_container self +:+ "@"
    +:+ account_name (adls_base self) +:+ ".dfs.core.windows.net/" +:+ path.

Definition AzureDataLakeGen2Connector_read (self : AzureDataLakeGen2Connector)
    (path format : string) (options : option PyDict.items) : M DataFrame :=
  let full_path := adls_full_path self path in
  let reader := spark_read_format format in
  let reader := reader_apply_options options reader in
  reader_load (Some full_path) reader.

Definition AzureDataLakeGen2Connector_write (self : AzureDataLakeGen2Connector)
    (df : DataFrame) (path format mode : string)
    (partition_by : option (list string))
    (options : option PyDict.items) : M unit :=
  let full_path := adls_full_path self path in
  let writer := writer_set_mode mode (df_write_format df format) in
  let writer := match partition_by with
                | Some (c :: cs) => writer_partitionBy (c :: cs) writer
                | _ => writer
                end in
  let writer := writer_apply_options options writer in
  writer_save (Some full_path) writer.

(** ** JDBC connectors: AzureSynapseConnector and AzureSQLConnector *)

Definition sqlserver_driver : string :=
  "com.microsoft.sqlserver.jdbc.SQLServerDriver".

(** [config.get(k, dflt)] on the raw constructor argument: [None] has no
    attribute [get]. *)
Definition raw_config_get (config : option (gmap string pyval))
    (k : string) (dflt : pyval) : result pyval :=
  match config with
  | Some m => Return (PyDict.get_default m k dflt)
  | None => Raise (AttributeError "'NoneType' object has no attribute 'get'")
  end.

(** The dict literal [{"user": ..., "password": ..., "driver": ...}]. *)
Definition build_connection_properties (config : option (gmap string pyval))
  : result PyDict.items :=
  match raw_config_get config "user" (PStr EmptyString) with
  | Raise e => Raise e
  | Return u =>
      match raw_config_get config "password" (PStr EmptyString) with
      | Raise e => Raise e
      | Return p =>
          Return [("user", u); ("password", p);
                  ("driver", PStr sqlserver_driver)]
      end
  end.

Record AzureSynapseConnector : Type := mkSynapse {
  syn_server : string;
  syn_database : string;
  syn_config : gmap string pyval;
  syn_jdbc_url : string;
  syn_connection_properties : PyDict.items
}.

Definition AzureSynapseConnector_init (server database : string)
    (config : option (gmap string pyval)) : result AzureSynapseConnector :=
  let cfg := PyDict.or_empty config in
  let jdbc_url := "jdbc:sqlserver://" +:+ server +:+ ":1433;database="
                    +:+ database in
  match build_connection_properties config with
  | Raise e => Raise e
  | Return props => Return (mkSynapse server database cfg jdbc_url props)
  end.

(** The part of [read] shared by the two JDBC connectors, after the
    argument checks. *)
Definition jdbc_reader (jdbc_url : string) (props : PyDict.items)
    (table query : option string) (options : option PyDict.items)
  : DataFrameReader :=
  let reader := reader_option "url" (PStr jdbc_url) (spark_read_format "jdbc") in
  let reader := foldl (λ acc kv, reader_option kv.1 kv.2 acc) reader props in
  let reader := if str_truthy table
                then reader_option "dbtable" (opt_str_val table) reader
                else reader_option "query" (opt_str_val query) reader in
  reader_apply_options options reader.

Definition jdbc_writer (jdbc_url : string) (props : PyDict.items)
    (df : DataFrame) (table mode : string) (options : option PyDict.items)
  : DataFrameWriter :=
  let writer := writer_set_mode mode
                  (writer_option "dbtable" (PStr table)
                     (writer_option "url" (PStr jdbc_url)
                        (df_write_format df "jdbc"))) in
  let writer := foldl (λ acc kv, writer_option kv.1 kv.2 acc) writer props in
  writer_apply_options options writer.

Definition AzureSynapseConnector_read (self : AzureSynapseConnector)
    (table query : option string) (options : option PyDict.items)
  : M DataFrame :=
  if str_truthy table && str_truthy query then
    raise (ValueError "Provide either table or query, not both")
  else if negb (str_truthy table) && negb (str_truthy query) then
    raise (ValueError "Provide either table or query")
  else
    reader_load None
      (jdbc_reader (syn_jdbc_url self) (syn_connection_properties self)
                   table query options).

Definition AzureSynapseConnector_write (self : AzureSynapseConnector)
    (df : DataFrame) (table mode : string) (options : option PyDict.items)
  : M unit :=
  writer_save None
    (jdbc_writer (syn_jdbc_url self) (syn_connection_properties self)
                 df table mode options).

Record AzureSQLConnector : Type := mkSQL {
  sql_server : string;
  sql_database : string;
  sql_config : gmap string pyval;
  sql_jdbc_url : string;
  sql_connection_properties : PyDict.items
}.

Definition AzureSQLConnector_init (server database : string)
    (config : option (gmap string pyval)) : result AzureSQLConnector :=
  let cfg := PyDict.or_empty config in
  let jdbc_url :=
    "jdbc:sqlserver://" +:+ server +:+ ":1433;database=" +:+ database
      +:+ ";encrypt=true;trustServerCertificate=false;hostNameInCertificate=*.database.windows.net;loginTimeout=30" in
  match build_connection_properties config with
  | Raise e => Raise e
  | Return props => Return (mkSQL server database cfg jdbc_url props)
  end.

Definition AzureSQLConnector_read (self : AzureSQLConnector)
    (table query : option string) (options : option PyDict.items)
  : M DataFrame :=
  if str_truthy table && str_truthy query then
    raise (ValueError "Provide either table or query, not both")
  else
    reader_load None
      (jdbc_reader (sql_jdbc_url self) (sql_connection_properties self)
                   table query options).

Definition AzureSQLConnector_write (self : AzureSQLConnector)
    (df : DataFrame) (table mode : string) (options : option PyDict.items)
  : M unit :=
  writer_save None
    (jdbc_writer (sql_jdbc_url self) (sql_connection_properties self)
                 df table mode options).

(** ** class AzureEventHubConnector *)

Record AzureEventHubConnector : Type := mkEventHub {
  eh_namespace : string;
  eh_eventhub_name : string;
  eh_config : gmap string pyval;
  connection_string : pyval
}.

(** [if "connection_string" in config] tests the raw argument: the [in]
    operator on [None] is a TypeError. *)
Definition AzureEventHubConnector_init (namespace eventhub_name : string)
    (config : option (gmap string pyval)) : result AzureEventHubConnector :=
  let cfg := PyDict.or_empty config in
  match config with
  | None => Raise (TypeError "argument of type 'NoneType' is not iterable")
  | Some m =>
      if PyDict.contains m "connection_string" then
        match m !! "connection_string" with
        | Some v => Return (mkEventHub namespace eventhub_name cfg v)
        | None => Raise (KeyError "connection_string")
        end
      else Raise (ValueError "connection_string is required in config")
  end.

(** The double-quote character, for the JSON text of the starting position. *)
Definition dquote : string :=
  String (Ascii.Ascii false true false false false true false false) EmptyString.

Definition starting_position_json (starting_position : string) : string :=
  "{" +:+ dquote +:+ "offset" +:+ dquote +:+ ": " +:+ dquote
      +:+ starting_position +:+ dquote +:+ "}".

(** The dict handed to [.options] by [read_stream]. *)
Definition read_stream_conf (self : AzureEventHubConnector)
    (starting_position : string) (options : option PyDict.items)
  : PyDict.items :=
  let eh_conf :=
    [("eventhubs.connectionString", connection_string self);
     ("eventhubs.startingPosition",
      PStr (starting_position_json starting_position))] in
  match options with
  | Some o => if PyDict.truthy options then PyDict.update eh_conf o else eh_conf
  | None => eh_conf
  end.

Definition AzureEventHubConnector_read_stream (self : AzureEventHubConnector)
    (starting_position : string) (options : option PyDict.items)
  : M DataFrame :=
  let eh_conf := read_stream_conf self starting_position options in
  reader ← lift_result
             (reader_options_kw eh_conf (spark_readStream_format "eventhubs"));
  reader_load None reader.

(** The stream writer's argument checks.  [outputMode] and [trigger]
    are methods of the engine's client library, which is not part of
    the repository: each either accepts its argument and returns the
    builder, or raises.  Which strings they accept is the engine's
    business, so the checks are a parameter of the model: [None] means
    accepted, [Some e] that the call raises [e]. *)
Record StreamChecks : Type := mkStreamChecks {
  outputMode_check : string → option exn;
  trigger_check : string → option exn
}.

Definition df_writeStream_format (df : DataFrame) (fmt : string)
  : DataStreamWriter :=
  mkStreamWriter df fmt None [] None.

Definition swriter_outputMode (checks : StreamChecks) (output_mode : string)
    (w : DataStreamWriter) : result DataStreamWriter :=
  match outputMode_check checks output_mode with
  | Some e => Raise e
  | None =>
      Return (mkStreamWriter (swriter_df w) (swriter_format w)
                (Some output_mode) (swriter_options w) (swriter_trigger w))
  end.

(** [writer.options] called with the dict unpacked as keyword arguments *)
Definition swriter_options_kw (kw : PyDict.items) (w : DataStreamWriter)
  : result DataStreamWriter :=
  if kw_binds_self kw
  then Raise (TypeError
                "DataStreamWriter.options() got multiple values for argument 'self'")
  else Return (mkStreamWriter (swriter_df w) (swriter_format w)
                 (swriter_output_mode w) (swriter_options w ++ kw)
                 (swriter_trigger w)).

Definition swriter_option (k : string) (v : pyval) (w : DataStreamWriter)
  : DataStreamWriter :=
  mkStreamWriter (swriter_df w) (swriter_format w) (swriter_output_mode w)
                 (swriter_options w ++ [(k, v)]) (swriter_trigger w).

(** [writer.trigger(processingTime=t)] *)
Definition swriter_trigger_processingTime (checks : StreamChecks)
    (t : string) (w : DataStreamWriter) : result DataStreamWriter :=
  match trigger_check checks t with
  | Some e => Raise e
  | None =>
      Return (mkStreamWriter (swriter_df w) (swriter_format w)
                (swriter_output_mode w) (swriter_options w) (Some t))
  end.

(** The builder chain of [write_stream], up to [start]. *)
Definition write_stream_writer (checks : StreamChecks)
    (self : AzureEventHubConnector)
    (df : DataFrame) (checkpoint_location output_mode trigger : string)
  : result DataStreamWriter :=
  let eh_conf := [("eventhubs.connectionString", connection_string self)] in
  w ← swriter_outputMode checks output_mode
        (df_writeStream_format df "eventhubs");
  w ← swriter_options_kw eh_conf w;
  swriter_trigger_processingTime checks trigger
    (swriter_option "checkpointLocation" (PStr checkpoint_location) w).

Definition AzureEventHubConnector_write_stream (checks : StreamChecks)
    (self : AzureEventHubConnector)
    (df : DataFrame) (checkpoint_location output_mode trigger : string)
  : M DataStreamWriter :=
  query ← lift_result
            (write_stream_writer checks self df checkpoint_location
                                 output_mode trigger);
  engine_call (CallStart query);; mret query.

(** ** The module as the interpreter loads it

    The statements that sit directly in each class body, in source
    order.  Lines 77-131 of the source, inside the body of
    [AzureBlobConnector], hold a fragment of four statements at class
    level: a [def], an assignment, a [for] loop and a [return]. *)

Inductive class_stmt : Type :=
  | SDocstring
  | SDef (name : string)
  | SAssign (target : string)
  | SFor (var : string)
  | SReturn.

Record py_class : Type := mkClass {
  class_name : string;
  class_body : list class_stmt
}.

Definition embedded_fragment : list class_stmt :=
  [SDef "_find_index_for_key"; SAssign "goal_theta"; SFor "g"; SReturn].

(** The module's classes, with the statements between [__init__] and
    [read] of [AzureBlobConnector] as a parameter. *)
Definition azure_connectors (fragment : list class_stmt) : list py_class :=
  [ mkClass "AzureConnector"
      [SDocstring; SDef "__init__"; SDef "_configure_auth"];
    mkClass "AzureBlobConnector"
      ([SDocstring; SDef "__init__"] ++ fragment
         ++ [SDef "read"; SDef "write"]);
    mkClass "AzureDataLakeGen2Connector"
      [SDocstring; SDef "__init__"; SDef "read"; SDef "write"];
    mkClass "AzureSynapseConnector"
      [SDocstring; SDef "__init__"; SDef "read"; SDef "write"];
    mkClass "AzureEventHubConnector"
      [SDocstring; SDef "__init__"; SDef "read_stream"; SDef "write_stream"];
    mkClass "AzureSQLConnector"
      [SDocstring; SDef "__init__"; SDef "read"; SDef "write"] ].

Definition is_return (s : class_stmt) : bool :=
  match s with
  | SReturn => true
  | _ => false
  end.

(** Importing the module compiles it first: a [return] that is not inside
    a function body is rejected, and then no class of the module exists.
    Otherwise the import binds the class names. *)
Definition import_module (m : list py_class) : result (list string) :=
  if existsb (λ c, existsb is_return (class_body c)) m
  then Raise (SyntaxError "'return' outside function")
  else Return (class_name <$> m).

(** The items of an [options] argument that the guarded loop applies. *)
Definition options_items (options : option PyDict.items) : PyDict.items :=
  default [] options.

(** [options.get(k)] on an optional dict; [None] when no dict is given. *)
Definition options_get (options : option PyDict.items) (k : string)
  : option pyval :=
  o ← options; PyDict.get o k.

(** The option calls a terminal engine call carries. *)
Definition call_options (c : EngineCall) : PyDict.items :=
  match c with
  | CallLoad r _ => reader_options r
  | CallSave w _ => writer_options w
  | CallStart w => swriter_options w
  end.

(** The session after one more terminal call. *)
Definition after_call (s : SparkSession) (c : EngineCall) : SparkSession :=
  mkSpark (spark_conf s) (spark_calls s ++ [c]).




(** The connection properties both JDBC constructors build from a config
    dict. *)
Definition connection_properties_of (m : gmap string pyval) : PyDict.items :=
  [("user", default (PStr EmptyString) (m !! "user"));
   ("password", default (PStr EmptyString) (m !! "password"));
   ("driver", PStr "com.microsoft.sqlserver.jdbc.SQLServerDriver")].

(** ** Outcomes of an operation *)

(** The operation returns after exactly one more engine call; the
    session's configuration is as before. *)
Definition one_call {A : Type} (out : result A * SparkSession)
    (s : SparkSession) : Prop :=
  ∃ a c, out = (Return a, after_call s c).

(** The operation raises a ValueError and leaves the session as it was. *)
Definition rejected {A : Type} (out : result A * SparkSession)
    (s : SparkSession) : Prop :=
  ∃ msg, out = (Raise (ValueError msg), s).

(** The operation returns after exactly one more engine call, in which
    option [k] is effectively [ov] ([None]: the option is not set). *)
Definition engine_option {A : Type} (out : result A * SparkSession)
    (s : SparkSession) (k : string) (ov : option pyval) : Prop :=
  ∃ a c, out = (Return a, after_call s c)
         ∧ effective_option (call_options c) k = ov.

(** The config asks for SAS authentication and holds a token, but no
    [container] key. *)
Definition sas_without_container (config : option (gmap string pyval))
  : bool :=
  match config with
  | Some m =>
      bool_decide (m !! "auth_type" = Some (PStr "sas_token"))
      && PyDict.contains m "sas_token"
      && negb (PyDict.contains m "container")
  | None => false
  end.

(** The option keys the JDBC connectors set themselves. *)
Definition jdbc_builtin_keys : list string :=
  ["url"; "user"; "password"; "driver"; "dbtable"; "query"].

(** The URL or path a terminal call addresses, if it names one. *)
Definition call_path (c : EngineCall) : option string :=
  match c with
  | CallLoad _ path => path
  | CallSave _ path => path
  | CallStart _ => None
  end.


(** ** Sample inputs *)

(** Stream checks that turn down the empty string only. *)
Definition sample_checks : StreamChecks :=
  mkStreamChecks
    (λ output_mode,
       match output_mode with
       | EmptyString =>
           Some (ValueError "The output mode must be a non-empty string")
       | _ => None
       end)
    (λ t,
       match t with
       | EmptyString =>
           Some (ValueError "Value for processingTime must be a non empty string")
       | _ => None
       end).


Definition fresh_session : SparkSession := mkSpark ∅ [].

Definition sample_storage_config : gmap string pyval :=
  {[ "account_key" := PStr "s3cr3t" ]}.

Definition sample_jdbc_config : gmap string pyval :=
  {[ "user" := PStr "admin" ]}.

Definition sample_eventhub_config : gmap string pyval :=
  {[ "connection_string" := PStr "Endpoint=sb://myeventhub/" ]}.

Definition sample_base : AzureConnector :=
  mkAzureConnector "mystorageaccount" sample_storage_config.

Definition sample_df : DataFrame :=
  Loaded (mkReader false "parquet" []) (Some "in.parquet").

(** * Properties *)

(** ** Dicts as item lists *)

Section pydict_lemmas.
Implicit Types (d o : PyDict.items) (k : string) (v : pyval).

Lemma get_app d1 d2 k :
  PyDict.get (d1 ++ d2) k =
    match PyDict.get d1 k with
    | Some v => Some v
    | None => PyDict.get d2 k
    end.
Proof.
  induction d1 as [|[k' v'] d1 IH]; simpl; [done|].
  by case_decide.
Qed.

Lemma get_None d k : PyDict.get d k = None ↔ k ∉ PyDict.keys d.
Proof.
  unfold PyDict.keys. induction d as [|[k' v'] d IH]; simpl.
  - split; [intros _; apply not_elem_of_nil | done].
  - rewrite not_elem_of_cons.
    destruct (decide (k' = k)) as [->|Hne]; [intuition congruence|].
    rewrite IH. intuition congruence.
Qed.

Lemma get_Some_elem d k v :
  PyDict.wf d → PyDict.get d k = Some v ↔ (k, v) ∈ d.
Proof.
  unfold PyDict.wf, PyDict.keys.
  induction d as [|[k' v'] d IH]; simpl; intros Hwf.
  - split; [done | by intros ?%elem_of_nil].
  - apply NoDup_cons in Hwf as [Hk' Hwf].
    rewrite elem_of_cons. destruct (decide (k' = k)) as [->|Hk].
    + split; [intros [= ->]; by left|]. intros [[= ->]|Hin]; [done|].
      destruct Hk'. apply list_elem_of_fmap. by exists (k, v).
    + rewrite IH by done. split; [by right|].
      intros [[= -> ->]|Hin]; [congruence | done].
Qed.

Lemma wf_reverse d : PyDict.wf d → PyDict.wf (reverse d).
Proof.
  unfold PyDict.wf, PyDict.keys.
  by rewrite fmap_reverse, reverse_Permutation.
Qed.

(** In a dict, the first and the last item of a key are the same one. *)
Lemma get_reverse d k :
  PyDict.wf d → PyDict.get (reverse d) k = PyDict.get d k.
Proof.
  intros Hwf. destruct (PyDict.get d k) as [v|] eqn:Hget.
  - apply get_Some_elem; [by apply wf_reverse|].
    apply elem_of_reverse. by apply get_Some_elem.
  - apply get_None. apply get_None in Hget.
    unfold PyDict.keys in *. by rewrite fmap_reverse, elem_of_reverse.
Qed.

Lemma keys_set d k v :
  PyDict.keys (PyDict.set d k v) =
    if bool_decide (k ∈ PyDict.keys d)
    then PyDict.keys d else PyDict.keys d ++ [k].
Proof.
  unfold PyDict.keys. induction d as [|[k' v'] d IH]; csimpl; [done|].
  destruct (decide (k' = k)) as [->|Hk]; csimpl.
  - rewrite bool_decide_eq_true_2; [done | apply elem_of_cons; by left].
  - rewrite IH. case_bool_decide as Hin.
    + rewrite bool_decide_eq_true_2; [done | apply elem_of_cons; by right].
    + rewrite bool_decide_eq_false_2; [done|].
      rewrite not_elem_of_cons. split; [congruence | done].
Qed.

Lemma wf_set d k v : PyDict.wf d → PyDict.wf (PyDict.set d k v).
Proof.
  unfold PyDict.wf. rewrite keys_set. case_bool_decide as Hin; [done|].
  intros Hwf. apply NoDup_app. split_and!; [done | | apply NoDup_singleton].
  intros x Hx ->%list_elem_of_singleton. done.
Qed.

Lemma wf_update d o : PyDict.wf d → PyDict.wf (PyDict.update d o).
Proof.
  unfold PyDict.update. revert d.
  induction o as [|[k v] o IH]; simpl; intros d Hwf; [done|].
  by apply IH, wf_set.
Qed.

Lemma get_set d k v k' :
  PyDict.get (PyDict.set d k v) k' =
    if decide (k = k') then Some v else PyDict.get d k'.
Proof.
  induction d as [|[k0 v0] d IH]; simpl.
  - by case_decide.
  - repeat (case_decide; simpl; subst); try done; congruence.
Qed.

(** After [d.update(o)], a key of [o] has the value of its last item in
    [o], any other key keeps its value from [d]. *)
Lemma get_update d o k :
  PyDict.get (PyDict.update d o) k =
    match PyDict.get (reverse o) k with
    | Some v => Some v
    | None => PyDict.get d k
    end.
Proof.
  unfold PyDict.update. revert d.
  induction o as [|[k0 v0] o IH]; simpl; intros d; [done|].
  rewrite IH, reverse_cons, get_app, get_set. simpl.
  destruct (PyDict.get (reverse o) k); [done|]. by case_decide.
Qed.


Lemma effective_option_wf d k :
  PyDict.wf d → effective_option d k = PyDict.get d k.
Proof. apply get_reverse. Qed.

End pydict_lemmas.

(** The quote character is code point 34, so that
    [starting_position_json] spells the JSON object with key offset. *)
Lemma dquote_code_point :
  dquote = String (Ascii.ascii_of_nat 34) EmptyString
  ∧ String.length (starting_position_json "earliest") = 22.
Proof. split; reflexivity. Qed.

(** ** Builders *)

Lemma foldl_reader_option r l :
  foldl (λ acc kv, reader_option kv.1 kv.2 acc) r l =
    mkReader (reader_streaming r) (reader_format r) (reader_options r ++ l).
Proof.
  revert r. induction l as [|[k v] l IH]; intros [st f os]; simpl.
  - by rewrite app_nil_r.
  - rewrite IH. simpl. by rewrite <- app_assoc.
Qed.

Lemma foldl_writer_option w l :
  foldl (λ acc kv, writer_option kv.1 kv.2 acc) w l =
    mkWriter (writer_df w) (writer_format w) (writer_mode w)
             (writer_partition_by w) (writer_options w ++ l).
Proof.
  revert w. induction l as [|[k v] l IH]; intros [df f m p os]; simpl.
  - by rewrite app_nil_r.
  - rewrite IH. simpl. by rewrite <- app_assoc.
Qed.

Lemma reader_apply_options_eq options r :
  reader_apply_options options r =
    mkReader (reader_streaming r) (reader_format r)
             (reader_options r ++ options_items options).
Proof.
  destruct r as [st f os], options as [[|[k v] o]|]; simpl;
    rewrite ?app_nil_r; try done.
  rewrite foldl_reader_option. simpl. by rewrite <- app_assoc.
Qed.

Lemma writer_apply_options_eq options w :
  writer_apply_options options w =
    mkWriter (writer_df w) (writer_format w) (writer_mode w)
             (writer_partition_by w)
             (writer_options w ++ options_items options).
Proof.
  destruct w as [df f m p os], options as [[|[k v] o]|]; simpl;
    rewrite ?app_nil_r; try done.
  rewrite foldl_writer_option. simpl. by rewrite <- app_assoc.
Qed.

Lemma jdbc_reader_eq jdbc_url props table query options :
  jdbc_reader jdbc_url props table query options =
    mkReader false "jdbc"
      ([("url", PStr jdbc_url)] ++ props
         ++ [if str_truthy table then ("dbtable", opt_str_val table)
             else ("query", opt_str_val query)]
         ++ options_items options).
Proof.
  unfold jdbc_reader. rewrite reader_apply_options_eq, foldl_reader_option.
  destruct (str_truthy table); simpl; by rewrite <- ?app_assoc.
Qed.

Lemma jdbc_writer_eq jdbc_url props df table mode options :
  jdbc_writer jdbc_url props df table mode options =
    mkWriter df "jdbc" (Some mode) None
      ([("url", PStr jdbc_url); ("dbtable", PStr table)] ++ props
         ++ options_items options).
Proof.
  unfold jdbc_writer. rewrite writer_apply_options_eq, foldl_writer_option.
  simpl. by rewrite <- ?app_assoc.
Qed.

(** ** Running the operations *)

Lemma reader_load_run path r s :
  reader_load path r s = (Return (Loaded r path), after_call s (CallLoad r path)).
Proof. reflexivity. Qed.

Lemma writer_save_run path w s :
  writer_save path w s = (Return (), after_call s (CallSave w path)).
Proof. reflexivity. Qed.

Lemma blob_init_fields account container config s self s' :
  AzureBlobConnector_init account container config s = (Return self, s') →
  blob_container self = container ∧ account_name (blob_base self) = account.
Proof.
  unfold AzureBlobConnector_init, mbind, M_bind.
  destruct (configure_auth _ _ s) as [[[]|e] s1]; [|done].
  by intros [= <- _].
Qed.

Lemma adls_init_fields account container config s self s' :
  AzureDataLakeGen2Connector_init account container config s
    = (Return self, s') →
  adls_container self = container ∧ account_name (adls_base self) = account.
Proof.
  unfold AzureDataLakeGen2Connector_init, mbind, M_bind.
  destruct (configure_auth _ _ s) as [[[]|e] s1]; [|done].
  by intros [= <- _].
Qed.

(** ** The claims *)

(** C1 (defect in the code).  The fragment is not inert: its last
    statement is a [return] directly in the body of [AzureBlobConnector],
    so importing the module fails with a SyntaxError and no connector
    can be constructed, whereas the same module with the fragment
    removed imports and binds the six connector classes. *)
Theorem embedded_fragment_breaks_import :
  import_module (azure_connectors embedded_fragment)
    = Raise (SyntaxError "'return' outside function")
  ∧ import_module (azure_connectors [])
    = Return ["AzureConnector"; "AzureBlobConnector";
              "AzureDataLakeGen2Connector"; "AzureSynapseConnector";
              "AzureEventHubConnector"; "AzureSQLConnector"].
Proof. split; reflexivity. Qed.

(** C2.  When both [table] and [query] are truthy, [read] of
    AzureSynapseConnector and of AzureSQLConnector raises the ValueError
    of the argument check, and the session is left as it was: no call
    reaches the engine. *)
Theorem read_rejects_table_and_query
    (syn : AzureSynapseConnector) (sql : AzureSQLConnector)
    (table query : option string) (options : option PyDict.items)
    (s : SparkSession) :
  str_truthy table = true →
  str_truthy query = true →
  AzureSynapseConnector_read syn table query options s
    = (Raise (ValueError "Provide either table or query, not both"), s)
  ∧ AzureSQLConnector_read sql table query options s
    = (Raise (ValueError "Provide either table or query, not both"), s).
Proof.
  intros Ht Hq.
  unfold AzureSynapseConnector_read, AzureSQLConnector_read.
  by rewrite Ht, Hq.
Qed.

Lemma read_rejects_table_and_query_witness :
  str_truthy (Some "fact_sales") = true
  ∧ str_truthy (Some "select 1") = true
  ∧ AzureSynapseConnector_read
      (mkSynapse "srv" "db" ∅ "jdbc:sqlserver://srv:1433;database=db" [])
      (Some "fact_sales") (Some "select 1") None fresh_session
    = (Raise (ValueError "Provide either table or query, not both"),
       fresh_session)
  ∧ AzureSQLConnector_read
      (mkSQL "srv" "db" ∅ "jdbc:sqlserver://srv:1433;database=db" [])
      (Some "fact_sales") (Some "select 1") None fresh_session
    = (Raise (ValueError "Provide either table or query, not both"),
       fresh_session).
Proof.
  split; [reflexivity|]. split; [reflexivity|].
  apply read_rejects_table_and_query; reflexivity.
Defined.

(** C3 (defect in the code).  With neither [table] nor [query],
    AzureSynapseConnector.read raises the ValueError of its
    required-argument check, but AzureSQLConnector.read has no such
    check: it issues a load whose [query] option is [None]. *)
Theorem sql_read_forwards_missing_table_and_query
    (syn : AzureSynapseConnector) (sql : AzureSQLConnector)
    (options : option PyDict.items) (s : SparkSession) :
  AzureSynapseConnector_read syn None None options s
    = (Raise (ValueError "Provide either table or query"), s)
  ∧ AzureSQLConnector_read sql None None options s
    = let r := mkReader false "jdbc"
                 ([("url", PStr (sql_jdbc_url sql))]
                    ++ sql_connection_properties sql
                    ++ [("query", PNone)] ++ options_items options) in
      (Return (Loaded r None), after_call s (CallLoad r None)).
Proof.
  split; [reflexivity|].
  unfold AzureSQLConnector_read. simpl.
  by rewrite reader_load_run, jdbc_reader_eq.
Qed.

(** C4 (defect in the code).  With [config] omitted or [None] the
    constructor of AzureEventHubConnector fails in the membership test
    on the raw argument with a TypeError, not with the ValueError of the
    required-key check.  With a dict, it raises that ValueError when the
    key is missing and stores the value under the key otherwise. *)
Theorem eventhub_init_by_config (namespace eventhub_name : string) :
  AzureEventHubConnector_init namespace eventhub_name None
    = Raise (TypeError "argument of type 'NoneType' is not iterable")
  ∧ ∀ m : gmap string pyval,
      AzureEventHubConnector_init namespace eventhub_name (Some m)
      = match m !! "connection_string" with
        | Some v => Return (mkEventHub namespace eventhub_name
                                       (PyDict.or_empty (Some m)) v)
        | None => Raise (ValueError "connection_string is required in config")
        end.
Proof.
  split; [reflexivity|]. intros m.
  unfold AzureEventHubConnector_init, PyDict.contains.
  destruct (m !! "connection_string") as [v|] eqn:Hm.
  - by rewrite bool_decide_eq_true_2.
  - rewrite bool_decide_eq_false_2; [done|]. by intros [? ?].
Qed.

(** C5.  A Blob connector constructed for [account] and [container]
    reads and writes at exactly
    wasbs://container@account.blob.core.windows.net/path, and a Data
    Lake Gen2 connector at exactly
    abfss://container@account.dfs.core.windows.net/path: each operation
    makes one engine call, and that call carries this URL. *)
Theorem storage_urls
    (account container : string) (config : option (gmap string pyval))
    (s0 s1 s2 s3 : SparkSession)
    (blob : AzureBlobConnector) (adls : AzureDataLakeGen2Connector) :
  AzureBlobConnector_init account container config s0 = (Return blob, s1) →
  AzureDataLakeGen2Connector_init account container config s2
    = (Return adls, s3) →
  ∀ (df : DataFrame) (path format mode : string)
    (partition_by : option (list string))
    (options : option PyDict.items) (s : SparkSession),
    let wasbs := "wasbs://" +:+ container +:+ "@" +:+ account
                   +:+ ".blob.core.windows.net/" +:+ path in
    let abfss := "abfss://" +:+ container +:+ "@" +:+ account
                   +:+ ".dfs.core.windows.net/" +:+ path in
    (∃ r, AzureBlobConnector_read blob path format options s
          = (Return (Loaded r (Some wasbs)),
             after_call s (CallLoad r (Some wasbs))))
    ∧ (∃ w, AzureBlobConnector_write blob df path format mode options s
            = (Return (), after_call s (CallSave w (Some wasbs))))
    ∧ (∃ r, AzureDataLakeGen2Connector_read adls path format options s
            = (Return (Loaded r (Some abfss)),
               after_call s (CallLoad r (Some abfss))))
    ∧ (∃ w, AzureDataLakeGen2Connector_write adls df path format mode
              partition_by options s
            = (Return (), after_call s (CallSave w (Some abfss)))).
Proof.
  intros [Hbc Hba]%blob_init_fields [Hac Haa]%adls_init_fields.
  intros df path format mode partition_by options s wasbs abfss.
  unfold AzureBlobConnector_read, AzureBlobConnector_write,
    AzureDataLakeGen2Connector_read, AzureDataLakeGen2Connector_write,
    blob_full_path, adls_full_path.
  rewrite Hbc, Hba, Hac, Haa.
  split_and!; eexists; simpl;
    first [apply reader_load_run | apply writer_save_run].
Qed.

Lemma storage_urls_witness :
  ∃ blob adls s1 s3,
    AzureBlobConnector_init "mystorageaccount" "raw-data"
      (Some sample_storage_config) fresh_session = (Return blob, s1)
    ∧ AzureDataLakeGen2Connector_init "mystorageaccount" "raw-data"
        (Some sample_storage_config) fresh_session = (Return adls, s3)
    ∧ (∃ r, AzureBlobConnector_read blob "input/sales.parquet" "parquet"
              None s1
            = (Return (Loaded r (Some "wasbs://raw-data@mystorageaccount.blob.core.windows.net/input/sales.parquet")),
               after_call s1 (CallLoad r (Some "wasbs://raw-data@mystorageaccount.blob.core.windows.net/input/sales.parquet"))))
    ∧ (∃ w, AzureDataLakeGen2Connector_write adls sample_df
              "out/sales" "delta" "append" (Some ["day"]) None s3
            = (Return (),
               after_call s3 (CallSave w (Some "abfss://raw-data@mystorageaccount.dfs.core.windows.net/out/sales")))).
Proof.
  eexists _, _, _, _.
  split; [vm_compute; reflexivity|]. split; [vm_compute; reflexivity|].
  pose proof (storage_urls "mystorageaccount" "raw-data"
                (Some sample_storage_config) fresh_session _ fresh_session _
                _ _ eq_refl eq_refl) as H.
  split.
  - exact (proj1 (H sample_df "input/sales.parquet" "parquet" "overwrite"
                    None None _)).
  - exact (proj2 (proj2 (proj2 (H sample_df "out/sales" "delta" "append"
                                  (Some ["day"]) None _)))).
Defined.

(** ** Event Hub options *)

Lemma eventhub_init_Some namespace eventhub_name m v self :
  m !! "connection_string" = Some v →
  AzureEventHubConnector_init namespace eventhub_name (Some m) = Return self →
  connection_string self = v.
Proof.
  intros Hm. unfold AzureEventHubConnector_init, PyDict.contains.
  rewrite Hm, bool_decide_eq_true_2 by done. by intros [= <-].
Qed.

Lemma read_stream_conf_wf self starting_position options :
  PyDict.wf (read_stream_conf self starting_position options).
Proof.
  assert (PyDict.wf
            [("eventhubs.connectionString", connection_string self);
             ("eventhubs.startingPosition",
              PStr (starting_position_json starting_position))]) as Hwf.
  { unfold PyDict.wf, PyDict.keys. simpl.
    apply NoDup_cons. split; [|apply NoDup_singleton].
    by intros ?%list_elem_of_singleton. }
  unfold read_stream_conf.
  destruct options as [[|kv o]|]; simpl; try done.
  apply (wf_update _ (kv :: o) Hwf).
Qed.

Lemma read_stream_conf_get self starting_position options k :
  PyDict.get (read_stream_conf self starting_position options) k =
    match PyDict.get (reverse (options_items options)) k with
    | Some v => Some v
    | None =>
        PyDict.get
          [("eventhubs.connectionString", connection_string self);
           ("eventhubs.startingPosition",
            PStr (starting_position_json starting_position))] k
    end.
Proof.
  unfold read_stream_conf.
  destruct options as [[|kv o]|]; try done.
  apply (get_update _ (kv :: o)).
Qed.

Lemma get_reverse_None_iff (d : PyDict.items) k :
  PyDict.get (reverse d) k = None ↔ PyDict.get d k = None.
Proof.
  rewrite !get_None. unfold PyDict.keys.
  by rewrite fmap_reverse, elem_of_reverse.
Qed.

Lemma kw_binds_self_get kw :
  kw_binds_self kw = bool_decide (is_Some (PyDict.get kw "self")).
Proof.
  unfold kw_binds_self. apply bool_decide_ext.
  rewrite <- not_eq_None_Some, get_None.
  split; [by intros ? ?|]. apply dec_stable.
Qed.

(** Whether the dict [read_stream] unpacks has a key self is up to the
    caller's options alone. *)
Lemma read_stream_conf_binds_self self starting_position options :
  kw_binds_self (read_stream_conf self starting_position options)
  = bool_decide (is_Some (options_get options "self")).
Proof.
  rewrite kw_binds_self_get. apply bool_decide_ext.
  rewrite read_stream_conf_get.
  destruct (PyDict.get (reverse (options_items options)) "self")
    as [x|] eqn:Hrev.
  - split; [intros _|by eexists].
    apply not_eq_None_Some. intros Hnone.
    destruct options as [o|]; [|done].
    apply (proj2 (get_reverse_None_iff o "self")) in Hnone.
    simpl in *. congruence.
  - apply (proj1 (get_reverse_None_iff _ _)) in Hrev.
    destruct options as [o|]; simpl in *.
    + rewrite Hrev. split; by intros [? ?].
    + split; by intros [? ?].
Qed.

Lemma read_stream_run self starting_position options s :
  options_get options "self" = None →
  AzureEventHubConnector_read_stream self starting_position options s =
    let r := mkReader true "eventhubs"
               (read_stream_conf self starting_position options) in
    (Return (Loaded r None), after_call s (CallLoad r None)).
Proof.
  intros Hself.
  unfold AzureEventHubConnector_read_stream, reader_options_kw, lift_result,
    mbind, M_bind.
  rewrite read_stream_conf_binds_self, Hself.
  rewrite (bool_decide_eq_false_2 (is_Some None)) by (by intros [? ?]).
  by rewrite foldl_reader_option, reader_load_run.
Qed.

Lemma read_stream_self_raises self starting_position options s :
  is_Some (options_get options "self") →
  AzureEventHubConnector_read_stream self starting_position options s =
    (Raise (TypeError
              "DataStreamReader.options() got multiple values for argument 'self'"),
     s).
Proof.
  intros Hself.
  unfold AzureEventHubConnector_read_stream, reader_options_kw, lift_result,
    mbind, M_bind.
  by rewrite read_stream_conf_binds_self, bool_decide_eq_true_2.
Qed.

Lemma write_stream_writer_eq checks self df checkpoint_location output_mode
    trigger :
  write_stream_writer checks self df checkpoint_location output_mode trigger =
    match outputMode_check checks output_mode with
    | Some e => Raise e
    | None =>
        match trigger_check checks trigger with
        | Some e => Raise e
        | None =>
            Return (mkStreamWriter df "eventhubs" (Some output_mode)
                      [("eventhubs.connectionString", connection_string self);
                       ("checkpointLocation", PStr checkpoint_location)]
                      (Some trigger))
        end
    end.
Proof.
  unfold write_stream_writer, swriter_outputMode,
    swriter_trigger_processingTime, mbind, result_bind.
  destruct (outputMode_check checks output_mode); [done|].
  by destruct (trigger_check checks trigger).
Qed.

Lemma write_stream_run checks self df checkpoint_location output_mode
    trigger s :
  AzureEventHubConnector_write_stream checks self df checkpoint_location
    output_mode trigger s =
    match write_stream_writer checks self df checkpoint_location output_mode
            trigger with
    | Return q => (Return q, after_call s (CallStart q))
    | Raise e => (Raise e, s)
    end.
Proof.
  unfold AzureEventHubConnector_write_stream, lift_result, mbind, M_bind.
  by destruct (write_stream_writer _ _ _ _ _ _).
Qed.

(** C6, as stated, fails for [read_stream]: a caller option named
    eventhubs.connectionString replaces the connection string of the
    config. *)
Lemma read_stream_connection_string_overridden :
  ¬ (∀ (m : gmap string pyval) (v : pyval) (self : AzureEventHubConnector)
       (starting_position : string) (options : option PyDict.items)
       (s s' : SparkSession) (r : DataFrameReader),
       m !! "connection_string" = Some v →
       AzureEventHubConnector_init "myeventhub" "events" (Some m)
         = Return self →
       AzureEventHubConnector_read_stream self starting_position options s
         = (Return (Loaded r None), s') →
       effective_option (reader_options r) "eventhubs.connectionString"
         = Some v).
Proof.
  intros H.
  specialize (H sample_eventhub_config (PStr "Endpoint=sb://myeventhub/")
                (mkEventHub "myeventhub" "events" sample_eventhub_config
                            (PStr "Endpoint=sb://myeventhub/"))
                "earliest"
                (Some [("eventhubs.connectionString", PStr "Endpoint=sb://other/")])
                fresh_session _ _ eq_refl eq_refl
                (read_stream_run
                   (mkEventHub "myeventhub" "events" sample_eventhub_config
                               (PStr "Endpoint=sb://myeventhub/"))
                   "earliest"
                   (Some [("eventhubs.connectionString",
                           PStr "Endpoint=sb://other/")])
                   fresh_session eq_refl)).
  vm_compute in H. discriminate H.
Qed.

(** C6 (amended).  For a connector constructed from a config holding
    [connection_string]: every [write_stream] call whose output mode and
    trigger the engine's builder accepts, and every [read_stream] call
    whose options carry neither the key eventhubs.connectionString nor a
    key named self, reaches the engine and hands it that connection
    string unchanged under eventhubs.connectionString. *)
Theorem connection_string_passed_unchanged
    (checks : StreamChecks)
    (namespace eventhub_name : string) (m : gmap string pyval) (v : pyval)
    (self : AzureEventHubConnector) :
  m !! "connection_string" = Some v →
  AzureEventHubConnector_init namespace eventhub_name (Some m) = Return self →
  (∀ (df : DataFrame) (checkpoint_location output_mode trigger : string)
     (s : SparkSession),
     outputMode_check checks output_mode = None →
     trigger_check checks trigger = None →
     ∃ q, AzureEventHubConnector_write_stream checks self df
            checkpoint_location output_mode trigger s
          = (Return q, after_call s (CallStart q))
          ∧ effective_option (swriter_options q) "eventhubs.connectionString"
            = Some v)
  ∧ (∀ (starting_position : string) (options : option PyDict.items)
       (s : SparkSession),
       options_get options "eventhubs.connectionString" = None →
       options_get options "self" = None →
       ∃ r, AzureEventHubConnector_read_stream self starting_position
              options s
            = (Return (Loaded r None), after_call s (CallLoad r None))
            ∧ effective_option (reader_options r) "eventhubs.connectionString"
              = Some v).
Proof.
  intros Hm Hinit. rewrite <- (eventhub_init_Some _ _ _ _ _ Hm Hinit).
  split.
  - intros df ckpt om trig s Hom Htrig.
    rewrite write_stream_run, write_stream_writer_eq, Hom, Htrig.
    by eexists.
  - intros sp options s Hopt Hself. eexists.
    split; [by apply read_stream_run|].
    cbn [reader_options].
    rewrite effective_option_wf by apply read_stream_conf_wf.
    rewrite read_stream_conf_get.
    assert (PyDict.get (reverse (options_items options))
              "eventhubs.connectionString" = None) as ->; [|done].
    apply (proj2 (get_reverse_None_iff _ _)). by destruct options.
Qed.

Lemma connection_string_passed_unchanged_witness :
  sample_eventhub_config !! "connection_string"
    = Some (PStr "Endpoint=sb://myeventhub/")
  ∧ outputMode_check sample_checks "append" = None
  ∧ trigger_check sample_checks "10 seconds" = None
  ∧ options_get (Some [("maxEventsPerTrigger", PStr "100")])
      "eventhubs.connectionString" = None
  ∧ options_get (Some [("maxEventsPerTrigger", PStr "100")]) "self" = None
  ∧ (∃ q, AzureEventHubConnector_write_stream sample_checks
            (mkEventHub "myeventhub" "events" sample_eventhub_config
                        (PStr "Endpoint=sb://myeventhub/"))
            sample_df "/chk" "append" "10 seconds" fresh_session
          = (Return q, after_call fresh_session (CallStart q))
          ∧ effective_option (swriter_options q) "eventhubs.connectionString"
            = Some (PStr "Endpoint=sb://myeventhub/"))
  ∧ (∃ r, AzureEventHubConnector_read_stream
            (mkEventHub "myeventhub" "events" sample_eventhub_config
                        (PStr "Endpoint=sb://myeventhub/"))
            "earliest" (Some [("maxEventsPerTrigger", PStr "100")])
            fresh_session
          = (Return (Loaded r None), after_call fresh_session (CallLoad r None))
          ∧ effective_option (reader_options r) "eventhubs.connectionString"
            = Some (PStr "Endpoint=sb://myeventhub/")).
Proof.
  pose proof (connection_string_passed_unchanged sample_checks
                "myeventhub" "events"
                sample_eventhub_config (PStr "Endpoint=sb://myeventhub/")
                _ eq_refl eq_refl) as [Hw Hr].
  split; [reflexivity|]. split; [reflexivity|]. split; [reflexivity|].
  split; [reflexivity|]. split; [reflexivity|]. split.
  - by apply Hw.
  - by apply Hr.
Defined.

(** ** JDBC connectors *)

Lemma synapse_init_Some server database m :
  AzureSynapseConnector_init server database (Some m) =
    Return (mkSynapse server database (PyDict.or_empty (Some m))
              ("jdbc:sqlserver://" +:+ server +:+ ":1433;database="
                 +:+ database)
              (connection_properties_of m)).
Proof. reflexivity. Qed.

Lemma sql_init_Some server database m :
  AzureSQLConnector_init server database (Some m) =
    Return (mkSQL server database (PyDict.or_empty (Some m))
              ("jdbc:sqlserver://" +:+ server +:+ ":1433;database="
                 +:+ database
                 +:+ ";encrypt=true;trustServerCertificate=false;hostNameInCertificate=*.database.windows.net;loginTimeout=30")
              (connection_properties_of m)).
Proof. reflexivity. Qed.

Lemma synapse_read_run syn table query options s :
  xorb (str_truthy table) (str_truthy query) = true →
  AzureSynapseConnector_read syn table query options s =
    let r := jdbc_reader (syn_jdbc_url syn) (syn_connection_properties syn)
                         table query options in
    (Return (Loaded r None), after_call s (CallLoad r None)).
Proof.
  unfold AzureSynapseConnector_read.
  by destruct (str_truthy table), (str_truthy query).
Qed.

Lemma sql_read_run sql table query options s :
  str_truthy table && str_truthy query = false →
  AzureSQLConnector_read sql table query options s =
    let r := jdbc_reader (sql_jdbc_url sql) (sql_connection_properties sql)
                         table query options in
    (Return (Loaded r None), after_call s (CallLoad r None)).
Proof. unfold AzureSQLConnector_read. by intros ->. Qed.

(** C7.  Constructed from a config dict, AzureSynapseConnector holds the
    URL jdbc:sqlserver://server:1433;database=database and
    AzureSQLConnector the same URL followed by the encryption and
    timeout settings; both hold the connection properties user and
    password taken from the config and the SQL Server driver class, and
    every read that passes the argument check and every write hands the
    engine the URL followed by these properties. *)
Theorem jdbc_url_and_connection_properties
    (server database : string) (m : gmap string pyval)
    (syn : AzureSynapseConnector) (sql : AzureSQLConnector) :
  AzureSynapseConnector_init server database (Some m) = Return syn →
  AzureSQLConnector_init server database (Some m) = Return sql →
  let props :=
    [("user", PyDict.get_default m "user" (PStr EmptyString));
     ("password", PyDict.get_default m "password" (PStr EmptyString));
     ("driver", PStr "com.microsoft.sqlserver.jdbc.SQLServerDriver")] in
  let syn_url := "jdbc:sqlserver://" +:+ server +:+ ":1433;database="
                   +:+ database in
  let sql_url := "jdbc:sqlserver://" +:+ server +:+ ":1433;database="
                   +:+ database
                   +:+ ";encrypt=true;trustServerCertificate=false;hostNameInCertificate=*.database.windows.net;loginTimeout=30" in
  syn_jdbc_url syn = syn_url
  ∧ sql_jdbc_url sql = sql_url
  ∧ syn_connection_properties syn = props
  ∧ sql_connection_properties sql = props
  ∧ (∀ table query options s,
       xorb (str_truthy table) (str_truthy query) = true →
       ∃ r sel,
         AzureSynapseConnector_read syn table query options s
           = (Return (Loaded r None), after_call s (CallLoad r None))
         ∧ reader_options r
           = [("url", PStr syn_url)] ++ props ++ [sel] ++ options_items options)
  ∧ (∀ table query options s,
       str_truthy table && str_truthy query = false →
       ∃ r sel,
         AzureSQLConnector_read sql table query options s
           = (Return (Loaded r None), after_call s (CallLoad r None))
         ∧ reader_options r
           = [("url", PStr sql_url)] ++ props ++ [sel] ++ options_items options)
  ∧ (∀ df table mode options s,
       ∃ w,
         AzureSynapseConnector_write syn df table mode options s
           = (Return (), after_call s (CallSave w None))
         ∧ writer_options w
           = [("url", PStr syn_url); ("dbtable", PStr table)] ++ props
               ++ options_items options)
  ∧ (∀ df table mode options s,
       ∃ w,
         AzureSQLConnector_write sql df table mode options s
           = (Return (), after_call s (CallSave w None))
         ∧ writer_options w
           = [("url", PStr sql_url); ("dbtable", PStr table)] ++ props
               ++ options_items options).
Proof.
  rewrite synapse_init_Some, sql_init_Some. intros [= <-] [= <-].
  cbv zeta. split_and!; try reflexivity.
  - intros table query options s Hx. eexists _, _.
    split; [by apply synapse_read_run|].
    by rewrite jdbc_reader_eq.
  - intros table query options s Hx. eexists _, _.
    split; [by apply sql_read_run|].
    by rewrite jdbc_reader_eq.
  - intros df table mode options s. eexists.
    split; [apply writer_save_run|]. by rewrite jdbc_writer_eq.
  - intros df table mode options s. eexists.
    split; [apply writer_save_run|]. by rewrite jdbc_writer_eq.
Qed.

Lemma jdbc_url_and_connection_properties_witness :
  ∃ syn sql,
    AzureSynapseConnector_init "mysynapse.sql.azuresynapse.net" "sales_dw"
      (Some sample_jdbc_config) = Return syn
    ∧ AzureSQLConnector_init "myserver.database.windows.net" "salesdb"
        (Some sample_jdbc_config) = Return sql
    ∧ syn_jdbc_url syn
      = "jdbc:sqlserver://mysynapse.sql.azuresynapse.net:1433;database=sales_dw"
    ∧ syn_connection_properties syn
      = [("user", PStr "admin"); ("password", PStr EmptyString);
         ("driver", PStr "com.microsoft.sqlserver.jdbc.SQLServerDriver")]
    ∧ xorb (str_truthy (Some "fact_sales")) (str_truthy None) = true
    ∧ ∃ r sel,
        AzureSynapseConnector_read syn (Some "fact_sales") None None
          fresh_session
        = (Return (Loaded r None), after_call fresh_session (CallLoad r None))
        ∧ reader_options r
          = [("url", PStr "jdbc:sqlserver://mysynapse.sql.azuresynapse.net:1433;database=sales_dw")]
              ++ [("user", PStr "admin"); ("password", PStr EmptyString);
                  ("driver", PStr "com.microsoft.sqlserver.jdbc.SQLServerDriver")]
              ++ [sel] ++ [].
Proof.
  eexists _, _.
  split; [reflexivity|].
  pose proof (jdbc_url_and_connection_properties
                "mysynapse.sql.azuresynapse.net" "sales_dw"
                sample_jdbc_config _
                (mkSQL "mysynapse.sql.azuresynapse.net" "sales_dw"
                   (PyDict.or_empty (Some sample_jdbc_config))
                   ("jdbc:sqlserver://mysynapse.sql.azuresynapse.net:1433;database=sales_dw;encrypt=true;trustServerCertificate=false;hostNameInCertificate=*.database.windows.net;loginTimeout=30")
                   (connection_properties_of sample_jdbc_config))
                eq_refl eq_refl) as (Hu & _ & Hp & _ & Hr & _).
  split; [reflexivity|]. split; [exact Hu|]. split; [exact Hp|].
  split; [reflexivity|].
  exact (Hr (Some "fact_sales") None None fresh_session eq_refl).
Defined.

(** ** Authentication settings *)

(** C8.  [_configure_auth] with auth type account_key and an account key
    in the config sets the one key
    fs.azure.account.key.ACCOUNT.dfs.core.windows.net to that account
    key and leaves every other configuration key as it was; with an
    auth type outside account_key, sas_token and managed_identity, or
    with account_key or sas_token selected and that credential absent
    from the config, the session is unchanged. *)
Theorem configure_auth_frame
    (self : AzureConnector) (auth_type : pyval) (s : SparkSession) :
  (∀ key_value : pyval,
     auth_type = PStr "account_key" →
     config self !! "account_key" = Some key_value →
     let key := "fs.azure.account.key." +:+ account_name self
                  +:+ ".dfs.core.windows.net" in
     ∃ s', configure_auth self auth_type s = (Return (), s')
           ∧ spark_conf s' !! key = Some key_value
           ∧ (∀ other, other ≠ key →
                spark_conf s' !! other = spark_conf s !! other)
           ∧ spark_calls s' = spark_calls s)
  ∧ (auth_type ≠ PStr "account_key" →
     auth_type ≠ PStr "sas_token" →
     auth_type ≠ PStr "managed_identity" →
     configure_auth self auth_type s = (Return (), s))
  ∧ (auth_type = PStr "account_key" →
     config self !! "account_key" = None →
     configure_auth self auth_type s = (Return (), s))
  ∧ (auth_type = PStr "sas_token" →
     config self !! "sas_token" = None →
     configure_auth self auth_type s = (Return (), s)).
Proof.
  unfold configure_auth, PyDict.contains. split_and!.
  - intros key_value -> Hk.
    rewrite bool_decide_eq_true_2 by done.
    rewrite bool_decide_eq_true_2 by (by rewrite Hk). simpl.
    unfold getitem. rewrite Hk. eexists. split; [reflexivity|]. simpl.
    split_and!; [apply lookup_insert_eq | | done].
    intros other Hne. by apply lookup_insert_ne.
  - intros H1 H2 H3.
    by rewrite (bool_decide_eq_false_2 _ H1), (bool_decide_eq_false_2 _ H2),
      (bool_decide_eq_false_2 _ H3).
  - intros -> Hk. rewrite Hk.
    rewrite (bool_decide_eq_false_2 (is_Some None)) by (by intros [? ?]).
    by rewrite andb_false_r.
  - intros -> Hk. rewrite Hk.
    rewrite (bool_decide_eq_false_2 (is_Some None)) by (by intros [? ?]).
    by rewrite andb_false_r.
Qed.

Lemma configure_auth_frame_witness :
  (∃ s', configure_auth sample_base (PStr "account_key") fresh_session
         = (Return (), s')
         ∧ spark_conf s'
             !! "fs.azure.account.key.mystorageaccount.dfs.core.windows.net"
           = Some (PStr "s3cr3t")
         ∧ (∀ other,
              other ≠ "fs.azure.account.key.mystorageaccount.dfs.core.windows.net" →
              spark_conf s' !! other = spark_conf fresh_session !! other)
         ∧ spark_calls s' = spark_calls fresh_session)
  ∧ configure_auth sample_base (PStr "kerberos") fresh_session
    = (Return (), fresh_session)
  ∧ configure_auth (mkAzureConnector "mystorageaccount" ∅)
      (PStr "account_key") fresh_session
    = (Return (), fresh_session)
  ∧ configure_auth sample_base (PStr "sas_token") fresh_session
    = (Return (), fresh_session).
Proof.
  split_and!.
  - apply (proj1 (configure_auth_frame sample_base (PStr "account_key")
                    fresh_session) (PStr "s3cr3t")); reflexivity.
  - apply (proj1 (proj2 (configure_auth_frame sample_base (PStr "kerberos")
                           fresh_session))); discriminate.
  - apply (proj1 (proj2 (proj2 (configure_auth_frame
                                  (mkAzureConnector "mystorageaccount" ∅)
                                  (PStr "account_key") fresh_session))));
      reflexivity.
  - apply (proj2 (proj2 (proj2 (configure_auth_frame sample_base
                                  (PStr "sas_token") fresh_session))));
      reflexivity.
Defined.

(** ** Construction of the JDBC connectors *)

(** C9.  The constructors of AzureSynapseConnector and AzureSQLConnector
    return a connector exactly when a config dict is supplied ([None]
    raises on [config.get]); with a dict they never fail, and a missing
    user or password key gives the empty string in the connection
    properties. *)
Theorem jdbc_init_needs_config
    (server database : string) (config : option (gmap string pyval)) :
  ((∃ syn, AzureSynapseConnector_init server database config = Return syn)
   ↔ is_Some config)
  ∧ ((∃ sql, AzureSQLConnector_init server database config = Return sql)
     ↔ is_Some config)
  ∧ (∀ m syn sql,
       config = Some m →
       AzureSynapseConnector_init server database config = Return syn →
       AzureSQLConnector_init server database config = Return sql →
       (m !! "user" = None →
        PyDict.get (syn_connection_properties syn) "user"
          = Some (PStr EmptyString)
        ∧ PyDict.get (sql_connection_properties sql) "user"
          = Some (PStr EmptyString))
       ∧ (m !! "password" = None →
          PyDict.get (syn_connection_properties syn) "password"
            = Some (PStr EmptyString)
          ∧ PyDict.get (sql_connection_properties sql) "password"
            = Some (PStr EmptyString))).
Proof.
  split_and!.
  - destruct config as [m|]; simpl.
    + rewrite synapse_init_Some. split; [by eexists | by eexists].
    + split; [by intros [? ?] | by intros [? ?]].
  - destruct config as [m|]; simpl.
    + rewrite sql_init_Some. split; [by eexists | by eexists].
    + split; [by intros [? ?] | by intros [? ?]].
  - intros m syn sql ->. rewrite synapse_init_Some, sql_init_Some.
    intros [= <-] [= <-]. simpl. unfold PyDict.get_default.
    split; by intros ->.
Qed.

Lemma jdbc_init_needs_config_witness :
  is_Some (Some sample_jdbc_config)
  ∧ sample_jdbc_config !! "password" = None
  ∧ ∃ syn sql,
      AzureSynapseConnector_init "srv" "db" (Some sample_jdbc_config)
        = Return syn
      ∧ AzureSQLConnector_init "srv" "db" (Some sample_jdbc_config)
          = Return sql
      ∧ PyDict.get (syn_connection_properties syn) "password"
          = Some (PStr EmptyString)
      ∧ PyDict.get (sql_connection_properties sql) "password"
          = Some (PStr EmptyString).
Proof.
  split; [by eexists|]. split; [reflexivity|].
  eexists _, _. split; [reflexivity|]. split; [reflexivity|].
  apply (proj2 (proj2 (proj2 (jdbc_init_needs_config "srv" "db"
                                (Some sample_jdbc_config)))
                  sample_jdbc_config _ _ eq_refl eq_refl eq_refl)).
  reflexivity.
Defined.

(** ** Caller options *)











(** * Further properties of the connectors *)

(** ** Authentication settings, all branches *)

Lemma fs_azure_key_ne (key other : string) :
  String.prefix "fs.azure." key = true →
  String.prefix "fs.azure." other = false →
  key ≠ other.
Proof. intros Hk Ho ->. congruence. Qed.

Lemma configure_auth_account_key_eq self s k :
  config self !! "account_key" = Some k →
  configure_auth self (PStr "account_key") s =
    conf_set ("fs.azure.account.key." +:+ account_name self
                +:+ ".dfs.core.windows.net") k s.
Proof.
  intros Hk. unfold configure_auth, PyDict.contains, getitem.
  rewrite Hk. rewrite (bool_decide_eq_true_2 (is_Some (Some k))) by done.
  reflexivity.
Qed.

Lemma configure_auth_sas_token_eq self s t :
  config self !! "sas_token" = Some t →
  configure_auth self (PStr "sas_token") s =
    match config self !! "container" with
    | Some c =>
        conf_set ("fs.azure.sas." +:+ py_str c +:+ "." +:+ account_name self
                    +:+ ".blob.core.windows.net") t s
    | None => (Raise (KeyError "container"), s)
    end.
Proof.
  intros Ht. unfold configure_auth, PyDict.contains, getitem.
  rewrite Ht. rewrite (bool_decide_eq_true_2 (is_Some (Some t))) by done.
  simpl. by destruct (config self !! "container").
Qed.

Lemma configure_auth_managed_identity_eq self s :
  configure_auth self (PStr "managed_identity") s =
    (Return (),
     mkSpark (<["fs.azure.account.oauth.provider.type" :=
                  PStr "org.apache.hadoop.fs.azurebfs.oauth2.MsiTokenProvider"]>
                (<["fs.azure.account.auth.type" := PStr "OAuth"]>
                   (spark_conf s)))
             (spark_calls s)).
Proof. reflexivity. Qed.

Lemma configure_auth_noop self auth_type s :
  (auth_type = PStr "account_key" → config self !! "account_key" = None) →
  (auth_type = PStr "sas_token" → config self !! "sas_token" = None) →
  auth_type ≠ PStr "managed_identity" →
  configure_auth self auth_type s = (Return (), s).
Proof.
  intros Hak Hsas Hmi. unfold configure_auth, PyDict.contains.
  rewrite (bool_decide_eq_false_2 _ Hmi).
  destruct (decide (auth_type = PStr "account_key")) as [->|Hne1].
  - rewrite Hak by done.
    by rewrite (bool_decide_eq_false_2 (is_Some None)) by (by intros [? ?]).
  - rewrite (bool_decide_eq_false_2 _ Hne1). simpl.
    destruct (decide (auth_type = PStr "sas_token")) as [->|Hne2].
    + rewrite Hsas by done.
      by rewrite (bool_decide_eq_false_2 (is_Some None)) by (by intros [? ?]).
    + by rewrite (bool_decide_eq_false_2 _ Hne2).
Qed.

(** The four ways [_configure_auth] can go. *)
Lemma configure_auth_cases self auth_type :
  (∃ k, auth_type = PStr "account_key" ∧ config self !! "account_key" = Some k)
  ∨ (∃ t, auth_type = PStr "sas_token" ∧ config self !! "sas_token" = Some t)
  ∨ auth_type = PStr "managed_identity"
  ∨ ((auth_type = PStr "account_key" → config self !! "account_key" = None)
     ∧ (auth_type = PStr "sas_token" → config self !! "sas_token" = None)
     ∧ auth_type ≠ PStr "managed_identity").
Proof.
  destruct (decide (auth_type = PStr "managed_identity")) as [->|Hmi];
    [by right; right; left|].
  destruct (decide (auth_type = PStr "account_key")) as [->|Hak].
  { destruct (config self !! "account_key") as [k|] eqn:Hk;
      [left; by exists k|].
    right; right; right. by split_and!. }
  destruct (decide (auth_type = PStr "sas_token")) as [->|Hsas].
  { destruct (config self !! "sas_token") as [t|] eqn:Ht;
      [right; left; by exists t|].
    right; right; right. by split_and!. }
  right; right; right. by split_and!.
Qed.

(** X1.  Whatever the auth type and the config, [_configure_auth] makes
    no engine call, changes no configuration key outside the fs.azure.
    name space, and either returns or raises KeyError('container') with
    the session untouched. *)
Theorem configure_auth_only_fs_azure_keys
    (self : AzureConnector) (auth_type : pyval) (s : SparkSession) :
  ∃ r s',
    configure_auth self auth_type s = (r, s')
    ∧ spark_calls s' = spark_calls s
    ∧ (∀ other, String.prefix "fs.azure." other = false →
         spark_conf s' !! other = spark_conf s !! other)
    ∧ (r = Return () ∨ (r = Raise (KeyError "container") ∧ s' = s)).
Proof.
  destruct (configure_auth_cases self auth_type)
    as [(k & -> & Hk)|[(t & -> & Ht)|[->|(Hak & Hsas & Hmi)]]].
  - rewrite (configure_auth_account_key_eq _ _ _ Hk).
    eexists _, _. split; [reflexivity|]. simpl. split_and!; [done| |by left].
    intros other Ho. apply lookup_insert_ne. by apply fs_azure_key_ne.
  - rewrite (configure_auth_sas_token_eq _ _ _ Ht).
    destruct (config self !! "container") as [c|].
    + eexists _, _. split; [reflexivity|]. simpl.
      split_and!; [done| |by left].
      intros other Ho. apply lookup_insert_ne. by apply fs_azure_key_ne.
    + eexists _, _. split; [reflexivity|]. split_and!; [done..|by right].
  - rewrite configure_auth_managed_identity_eq.
    eexists _, _. split; [reflexivity|]. simpl. split_and!; [done| |by left].
    intros other Ho.
    rewrite !lookup_insert_ne; [done|by apply fs_azure_key_ne..].
  - rewrite configure_auth_noop by done.
    eexists _, _. split; [reflexivity|]. split_and!; [done..|by left].
Qed.

(** X2.  With auth type sas_token and a token in the config,
    [_configure_auth] reads the container name from the config: when it
    is there, the one key fs.azure.sas.CONTAINER.ACCOUNT.blob.core.windows.net
    is set to the token and nothing else changes; when it is not, the
    call raises KeyError('container') and the session is untouched. *)
Theorem configure_auth_sas_token
    (self : AzureConnector) (s : SparkSession) (token : pyval) :
  config self !! "sas_token" = Some token →
  match config self !! "container" with
  | Some c =>
      let key := "fs.azure.sas." +:+ py_str c +:+ "." +:+ account_name self
                   +:+ ".blob.core.windows.net" in
      ∃ s', configure_auth self (PStr "sas_token") s = (Return (), s')
            ∧ spark_conf s' !! key = Some token
            ∧ (∀ other, other ≠ key →
                 spark_conf s' !! other = spark_conf s !! other)
            ∧ spark_calls s' = spark_calls s
  | None =>
      configure_auth self (PStr "sas_token") s
        = (Raise (KeyError "container"), s)
  end.
Proof.
  intros Ht. rewrite (configure_auth_sas_token_eq _ _ _ Ht).
  destruct (config self !! "container") as [c|]; [|done].
  intros key. eexists. split; [reflexivity|]. simpl.
  split_and!; [apply lookup_insert_eq| |done].
  intros other Hne. by apply lookup_insert_ne.
Qed.

Lemma configure_auth_sas_token_witness :
  config (mkAzureConnector "acct"
            {[ "sas_token" := PStr "sv=1"; "container" := PStr "raw" ]})
    !! "sas_token" = Some (PStr "sv=1")
  ∧ ∃ s', configure_auth
            (mkAzureConnector "acct"
               {[ "sas_token" := PStr "sv=1"; "container" := PStr "raw" ]})
            (PStr "sas_token") fresh_session = (Return (), s')
          ∧ spark_conf s' !! "fs.azure.sas.raw.acct.blob.core.windows.net"
            = Some (PStr "sv=1")
          ∧ (∀ other, other ≠ "fs.azure.sas.raw.acct.blob.core.windows.net" →
               spark_conf s' !! other = spark_conf fresh_session !! other)
          ∧ spark_calls s' = spark_calls fresh_session.
Proof.
  split; [reflexivity|].
  exact (configure_auth_sas_token
           (mkAzureConnector "acct"
              {[ "sas_token" := PStr "sv=1"; "container" := PStr "raw" ]})
           fresh_session (PStr "sv=1") eq_refl).
Defined.

(** X3.  With auth type managed_identity, whatever the config holds,
    [_configure_auth] sets fs.azure.account.auth.type to OAuth and
    fs.azure.account.oauth.provider.type to the MSI token provider, and
    changes nothing else. *)
Theorem configure_auth_managed_identity
    (self : AzureConnector) (s : SparkSession) :
  ∃ s', configure_auth self (PStr "managed_identity") s = (Return (), s')
        ∧ spark_conf s' !! "fs.azure.account.auth.type" = Some (PStr "OAuth")
        ∧ spark_conf s' !! "fs.azure.account.oauth.provider.type"
          = Some (PStr "org.apache.hadoop.fs.azurebfs.oauth2.MsiTokenProvider")
        ∧ (∀ other, other ≠ "fs.azure.account.auth.type" →
             other ≠ "fs.azure.account.oauth.provider.type" →
             spark_conf s' !! other = spark_conf s !! other)
        ∧ spark_calls s' = spark_calls s.
Proof.
  rewrite configure_auth_managed_identity_eq.
  eexists. split; [reflexivity|]. simpl. split_and!; [| | |done].
  - by rewrite lookup_insert_ne, lookup_insert_eq.
  - by rewrite lookup_insert_eq.
  - intros other H1 H2. by rewrite !lookup_insert_ne.
Qed.

(** X4.  [_configure_auth] is idempotent: run again on the session it
    produced, it gives the same result and the same session. *)
Theorem configure_auth_idempotent
    (self : AzureConnector) (auth_type : pyval) (s : SparkSession) :
  configure_auth self auth_type (configure_auth self auth_type s).2
    = configure_auth self auth_type s.
Proof.
  destruct (configure_auth_cases self auth_type)
    as [(k & -> & Hk)|[(t & -> & Ht)|[->|(Hak & Hsas & Hmi)]]].
  - rewrite !(configure_auth_account_key_eq _ _ _ Hk).
    unfold conf_set. simpl. by rewrite insert_insert_eq.
  - rewrite !(configure_auth_sas_token_eq _ _ _ Ht).
    destruct (config self !! "container") as [c|]; [|done].
    unfold conf_set. simpl. by rewrite insert_insert_eq.
  - rewrite !configure_auth_managed_identity_eq. simpl. do 2 f_equal.
    apply map_eq. intros i. rewrite !lookup_insert.
    by repeat case_decide.
  - by rewrite !configure_auth_noop.
Qed.

(** ** Construction of the storage connectors *)

Lemma or_empty_Some_lookup (m : gmap string pyval) k v :
  m !! k = Some v → PyDict.or_empty (Some m) = m.
Proof.
  intros Hk. unfold PyDict.or_empty, PyDict.map_truthy.
  rewrite bool_decide_eq_true_2; [done|].
  intros ->. by rewrite lookup_empty in Hk.
Qed.

Lemma or_empty_lookup config k :
  PyDict.or_empty config !! k = config ≫= (.!! k).
Proof.
  destruct config as [m|]; simpl; [|apply lookup_empty].
  case_bool_decide as Hm; [done|].
  subst. by rewrite lookup_empty.
Qed.

Lemma auth_type_of_eq config :
  auth_type_of config =
    default (PStr "account_key") (config ≫= (.!! "auth_type")).
Proof.
  destruct config as [m|]; simpl; [|done].
  case_bool_decide as Hm; [done|].
  subst. by rewrite lookup_empty.
Qed.

Lemma blob_init_run account container config s :
  AzureBlobConnector_init account container config s =
    match configure_auth (AzureConnector_init account config)
            (auth_type_of config) s with
    | (Return _, s') =>
        (Return (mkBlob (AzureConnector_init account config) container), s')
    | (Raise e, s') => (Raise e, s')
    end.
Proof. reflexivity. Qed.

Lemma adls_init_run account container config s :
  AzureDataLakeGen2Connector_init account container config s =
    match configure_auth (AzureConnector_init account config)
            (auth_type_of config) s with
    | (Return _, s') =>
        (Return (mkDataLake (AzureConnector_init account config) container),
         s')
    | (Raise e, s') => (Raise e, s')
    end.
Proof. reflexivity. Qed.

(** [_configure_auth] fails in one case only. *)
Lemma configure_auth_outcome self auth_type s :
  configure_auth self auth_type s
  = if bool_decide (auth_type = PStr "sas_token")
       && PyDict.contains (config self) "sas_token"
       && negb (PyDict.contains (config self) "container")
    then (Raise (KeyError "container"), s)
    else (Return (), (configure_auth self auth_type s).2).
Proof.
  unfold PyDict.contains.
  destruct (configure_auth_cases self auth_type)
    as [(k & -> & Hk)|[(t & -> & Ht)|[->|(Hak & Hsas & Hmi)]]].
  - by rewrite (configure_auth_account_key_eq self s k).
  - rewrite (configure_auth_sas_token_eq self s t) by done. rewrite Ht.
    rewrite (bool_decide_eq_true_2 (is_Some (Some t))) by done.
    destruct (config self !! "container") as [c|].
    + by rewrite (bool_decide_eq_true_2 (is_Some (Some c))) by done.
    + by rewrite (bool_decide_eq_false_2 (is_Some None))
        by (by intros [? ?]).
  - by rewrite configure_auth_managed_identity_eq.
  - rewrite configure_auth_noop by done.
    destruct (decide (auth_type = PStr "sas_token")) as [->|Hne].
    + rewrite Hsas by done.
      by rewrite (bool_decide_eq_false_2 (is_Some None)) by (by intros [? ?]).
    + by rewrite (bool_decide_eq_false_2 _ Hne).
Qed.

Lemma sas_without_container_init account cfg :
  bool_decide (auth_type_of cfg = PStr "sas_token")
  && PyDict.contains (config (AzureConnector_init account cfg)) "sas_token"
  && negb (PyDict.contains (config (AzureConnector_init account cfg))
             "container")
  = sas_without_container cfg.
Proof.
  unfold PyDict.contains, AzureConnector_init. cbn [config].
  rewrite !or_empty_lookup, auth_type_of_eq.
  destruct cfg as [m|]; [|done]. cbn [mbind option_bind sas_without_container].
  unfold PyDict.contains. do 2 f_equal.
  apply bool_decide_ext.
  destruct (m !! "auth_type") as [a|]; simpl; split; congruence.
Qed.

(** X5.  Constructing a Blob or Data Lake Gen2 connector fails exactly
    when the config selects auth type sas_token, holds a sas_token and
    has no container key: the constructor's own container argument is
    not consulted, the error is KeyError('container') and the session is
    untouched.  In every other case both constructors return the
    connector for the given account, container and config. *)
Theorem storage_init_outcome
    (account container : string) (config : option (gmap string pyval))
    (s : SparkSession) :
  if sas_without_container config then
    AzureBlobConnector_init account container config s
      = (Raise (KeyError "container"), s)
    ∧ AzureDataLakeGen2Connector_init account container config s
      = (Raise (KeyError "container"), s)
  else
    ∃ s',
      AzureBlobConnector_init account container config s
        = (Return (mkBlob (mkAzureConnector account (PyDict.or_empty config))
                          container), s')
      ∧ AzureDataLakeGen2Connector_init account container config s
        = (Return (mkDataLake
                     (mkAzureConnector account (PyDict.or_empty config))
                     container), s').
Proof.
  rewrite blob_init_run, adls_init_run, configure_auth_outcome.
  rewrite sas_without_container_init.
  destruct (sas_without_container config); [done|]. by eexists.
Qed.

(** X6.  A config (or none) that names neither an auth type nor an
    account key makes construction a no-op on the session: both storage
    constructors return the connector and leave every configuration key
    and the call log as they were. *)
Theorem storage_init_without_credentials
    (account container : string) (config : option (gmap string pyval))
    (s : SparkSession) :
  config ≫= (.!! "auth_type") = None →
  config ≫= (.!! "account_key") = None →
  AzureBlobConnector_init account container config s
    = (Return (mkBlob (mkAzureConnector account (PyDict.or_empty config))
                      container), s)
  ∧ AzureDataLakeGen2Connector_init account container config s
    = (Return (mkDataLake (mkAzureConnector account (PyDict.or_empty config))
                          container), s).
Proof.
  intros Ha Hk. rewrite blob_init_run, adls_init_run.
  rewrite auth_type_of_eq, Ha. simpl.
  rewrite configure_auth_noop; [done|..]; try done.
  intros _. unfold AzureConnector_init. simpl. by rewrite or_empty_lookup.
Qed.

Lemma storage_init_without_credentials_witness :
  (None : option (gmap string pyval)) ≫= (.!! "auth_type") = None
  ∧ (None : option (gmap string pyval)) ≫= (.!! "account_key") = None
  ∧ AzureBlobConnector_init "acct" "raw" None fresh_session
    = (Return (mkBlob (mkAzureConnector "acct" ∅) "raw"), fresh_session)
  ∧ AzureDataLakeGen2Connector_init "acct" "raw" None fresh_session
    = (Return (mkDataLake (mkAzureConnector "acct" ∅) "raw"), fresh_session).
Proof.
  split; [reflexivity|]. split; [reflexivity|].
  exact (storage_init_without_credentials "acct" "raw" None fresh_session
           eq_refl eq_refl).
Defined.

(** X7.  With an account key in the config and the auth type absent or
    account_key, both storage constructors (the Blob one included) set
    the Data Lake key fs.azure.account.key.ACCOUNT.dfs.core.windows.net
    to the account key, change nothing else, and return the connector. *)
Theorem storage_init_account_key
    (account container : string) (m : gmap string pyval) (k : pyval)
    (s : SparkSession) :
  m !! "account_key" = Some k →
  m !! "auth_type" = None ∨ m !! "auth_type" = Some (PStr "account_key") →
  let s' := mkSpark (<["fs.azure.account.key." +:+ account
                         +:+ ".dfs.core.windows.net" := k]> (spark_conf s))
                    (spark_calls s) in
  AzureBlobConnector_init account container (Some m) s
    = (Return (mkBlob (mkAzureConnector account m) container), s')
  ∧ AzureDataLakeGen2Connector_init account container (Some m) s
    = (Return (mkDataLake (mkAzureConnector account m) container), s').
Proof.
  intros Hk Ha s'. rewrite blob_init_run, adls_init_run.
  assert (auth_type_of (Some m) = PStr "account_key") as ->.
  { rewrite auth_type_of_eq. simpl. by destruct Ha as [->| ->]. }
  unfold AzureConnector_init. rewrite (or_empty_Some_lookup _ _ _ Hk).
  by rewrite (configure_auth_account_key_eq _ _ k).
Qed.

Lemma storage_init_account_key_witness :
  sample_storage_config !! "account_key" = Some (PStr "s3cr3t")
  ∧ (sample_storage_config !! "auth_type" = None
     ∨ sample_storage_config !! "auth_type" = Some (PStr "account_key"))
  ∧ AzureBlobConnector_init "acct" "raw" (Some sample_storage_config)
      fresh_session
    = (Return (mkBlob (mkAzureConnector "acct" sample_storage_config) "raw"),
       mkSpark (<["fs.azure.account.key.acct.dfs.core.windows.net"
                    := PStr "s3cr3t"]> ∅) []).
Proof.
  split; [reflexivity|]. split; [by left|].
  exact (proj1 (storage_init_account_key "acct" "raw" sample_storage_config
                  (PStr "s3cr3t") fresh_session eq_refl
                  (or_introl eq_refl))).
Defined.

(** ** Reads and writes *)

(** Decides [one_call] and [rejected] of a computed outcome against a
    closed boolean equation. *)
Ltac settle_outcome :=
  lazymatch goal with
  | |- one_call (Return _, _) _ ↔ _ =>
      split; [done | intros _; by eexists _, _]
  | |- one_call (Raise _, _) _ ↔ _ =>
      split; [by intros (? & ? & ?) | done]
  | |- rejected (Raise _, _) _ ↔ _ =>
      split; [done | intros _; by eexists]
  | |- rejected (Return _, _) _ ↔ _ =>
      split; [by intros (? & ?) | done]
  end.

(** X8.  The two Event Hub stream operations reach the engine exactly
    when nothing on their builder chain raises.  [read_stream] makes
    its one load unless the caller's options hold a key named self, in
    which case it raises TypeError.  [write_stream] starts its one
    query, in format eventhubs with the given output mode and trigger
    and the options eventhubs.connectionString and checkpointLocation,
    exactly when the engine's builder accepts the output mode and the
    trigger; otherwise it raises the builder's error, the output mode's
    first.  A call that raises leaves the session untouched. *)
Theorem stream_operations_outcome
    (checks : StreamChecks) (eh : AzureEventHubConnector) (df : DataFrame)
    (starting_position checkpoint_location output_mode trigger : string)
    (options : option PyDict.items) (s : SparkSession) :
  match options_get options "self" with
  | None =>
      one_call
        (AzureEventHubConnector_read_stream eh starting_position options s) s
  | Some _ =>
      AzureEventHubConnector_read_stream eh starting_position options s
      = (Raise (TypeError
                  "DataStreamReader.options() got multiple values for argument 'self'"),
         s)
  end
  ∧ match outputMode_check checks output_mode with
    | Some e =>
        AzureEventHubConnector_write_stream checks eh df checkpoint_location
          output_mode trigger s = (Raise e, s)
    | None =>
        match trigger_check checks trigger with
        | Some e =>
            AzureEventHubConnector_write_stream checks eh df
              checkpoint_location output_mode trigger s = (Raise e, s)
        | None =>
            ∃ q,
              AzureEventHubConnector_write_stream checks eh df
                checkpoint_location output_mode trigger s
                = (Return q, after_call s (CallStart q))
              ∧ swriter_df q = df
              ∧ swriter_format q = "eventhubs"
              ∧ swriter_output_mode q = Some output_mode
              ∧ swriter_trigger q = Some trigger
              ∧ swriter_options q
                = [("eventhubs.connectionString", connection_string eh);
                   ("checkpointLocation", PStr checkpoint_location)]
        end
    end.
Proof.
  split.
  - destruct (options_get options "self") as [x|] eqn:Hself.
    + apply read_stream_self_raises. rewrite Hself. by eexists.
    + rewrite read_stream_run by done. by eexists _, _.
  - rewrite write_stream_run, write_stream_writer_eq.
    destruct (outputMode_check checks output_mode); [done|].
    destruct (trigger_check checks trigger); [done|].
    by eexists.
Qed.

(** X9.  A Synapse read reaches the engine exactly when one of [table]
    and [query] is truthy, and an Azure SQL read exactly when they are
    not both truthy; otherwise the read is rejected with a ValueError
    and the session is untouched.  An empty string counts as a missing
    argument: an empty table name reads as no table at all. *)
Theorem jdbc_read_reaches_engine_iff
    (syn : AzureSynapseConnector) (sql : AzureSQLConnector)
    (table query : option string) (options : option PyDict.items)
    (s : SparkSession) :
  (one_call (AzureSynapseConnector_read syn table query options s) s
   ↔ xorb (str_truthy table) (str_truthy query) = true)
  ∧ (rejected (AzureSynapseConnector_read syn table query options s) s
     ↔ xorb (str_truthy table) (str_truthy query) = false)
  ∧ (one_call (AzureSQLConnector_read sql table query options s) s
     ↔ str_truthy table && str_truthy query = false)
  ∧ (rejected (AzureSQLConnector_read sql table query options s) s
     ↔ str_truthy table && str_truthy query = true)
  ∧ AzureSynapseConnector_read syn (Some EmptyString) query options s
    = AzureSynapseConnector_read syn None query options s
  ∧ AzureSQLConnector_read sql (Some EmptyString) query options s
    = AzureSQLConnector_read sql None query options s.
Proof.
  unfold AzureSynapseConnector_read, AzureSQLConnector_read.
  split_and!; [..|reflexivity|reflexivity];
    destruct (str_truthy table), (str_truthy query); simpl;
    rewrite ?reader_load_run; unfold raise; settle_outcome.
Qed.

(** ** Built-in options that the caller does not override *)

Lemma get_reverse_None (d : PyDict.items) k :
  PyDict.get d k = None → PyDict.get (reverse d) k = None.
Proof.
  rewrite !get_None. unfold PyDict.keys.
  by rewrite fmap_reverse, elem_of_reverse.
Qed.

Lemma effective_option_app_keep (builtin o : PyDict.items) k :
  PyDict.get o k = None →
  effective_option (builtin ++ o) k = effective_option builtin k.
Proof.
  intros Ho. unfold effective_option.
  by rewrite reverse_app, get_app, (get_reverse_None _ _ Ho).
Qed.

Lemma options_get_items options k :
  options_get options k = None →
  PyDict.get (options_items options) k = None.
Proof. by destruct options. Qed.

Lemma jdbc_builtin_not_overridden options k :
  Forall (λ k, options_get options k = None) jdbc_builtin_keys →
  k ∈ jdbc_builtin_keys →
  PyDict.get (options_items options) k = None.
Proof.
  rewrite Forall_forall. intros H Hk. by apply options_get_items, H.
Qed.

(** X10.  A JDBC connector constructed from a config dict, reading with
    exactly one of [table] and [query] and with caller options that name
    none of the connector's own keys, gives the engine its JDBC URL, the
    user and password of the config (empty string when missing), the
    SQL Server driver class, and exactly one of dbtable and query: the
    table when one is given, the query otherwise, never both. *)
Theorem jdbc_read_builtin_options
    (server database : string) (m : gmap string pyval)
    (syn : AzureSynapseConnector) (sql : AzureSQLConnector)
    (table query : option string) (options : option PyDict.items)
    (s : SparkSession) :
  AzureSynapseConnector_init server database (Some m) = Return syn →
  AzureSQLConnector_init server database (Some m) = Return sql →
  xorb (str_truthy table) (str_truthy query) = true →
  Forall (λ k, options_get options k = None) jdbc_builtin_keys →
  let sent (out : result DataFrame * SparkSession) (url : string) :=
    engine_option out s "url" (Some (PStr url))
    ∧ engine_option out s "user"
        (Some (PyDict.get_default m "user" (PStr EmptyString)))
    ∧ engine_option out s "password"
        (Some (PyDict.get_default m "password" (PStr EmptyString)))
    ∧ engine_option out s "driver"
        (Some (PStr "com.microsoft.sqlserver.jdbc.SQLServerDriver"))
    ∧ engine_option out s "dbtable"
        (if str_truthy table then Some (opt_str_val table) else None)
    ∧ engine_option out s "query"
        (if str_truthy table then None else Some (opt_str_val query)) in
  sent (AzureSynapseConnector_read syn table query options s)
       (syn_jdbc_url syn)
  ∧ sent (AzureSQLConnector_read sql table query options s)
         (sql_jdbc_url sql).
Proof.
  rewrite synapse_init_Some, sql_init_Some.
  intros [= <-] [= <-] Hx Hopts sent. subst sent. cbv beta.
  rewrite synapse_read_run by done.
  rewrite sql_read_run
    by (by destruct (str_truthy table), (str_truthy query)).
  cbv zeta. rewrite !jdbc_reader_eq. cbn [syn_jdbc_url sql_jdbc_url
    syn_connection_properties sql_connection_properties].
  split_and!; (eexists _, _; split; [reflexivity|]);
    cbn [call_options reader_options]; rewrite !app_assoc;
    (rewrite effective_option_app_keep
       by (apply jdbc_builtin_not_overridden; [done|];
           unfold jdbc_builtin_keys; set_solver));
    by destruct (str_truthy table).
Qed.

Lemma jdbc_read_builtin_options_witness :
  xorb (str_truthy None) (str_truthy (Some "select 1")) = true
  ∧ Forall (λ k, options_get (Some [("fetchsize", PStr "1000")]) k = None)
      jdbc_builtin_keys
  ∧ engine_option
      (AzureSQLConnector_read
         (mkSQL "srv" "db" sample_jdbc_config
            "jdbc:sqlserver://srv:1433;database=db;encrypt=true;trustServerCertificate=false;hostNameInCertificate=*.database.windows.net;loginTimeout=30"
            (connection_properties_of sample_jdbc_config))
         None (Some "select 1") (Some [("fetchsize", PStr "1000")])
         fresh_session)
      fresh_session "dbtable" None
  ∧ engine_option
      (AzureSynapseConnector_read
         (mkSynapse "srv" "db" sample_jdbc_config
            "jdbc:sqlserver://srv:1433;database=db"
            (connection_properties_of sample_jdbc_config))
         None (Some "select 1") (Some [("fetchsize", PStr "1000")])
         fresh_session)
      fresh_session "query" (Some (PStr "select 1")).
Proof.
  assert (Forall (λ k, options_get (Some [("fetchsize", PStr "1000")]) k
                       = None) jdbc_builtin_keys) as Hopts
    by (repeat constructor).
  split; [reflexivity|]. split; [exact Hopts|].
  pose proof (jdbc_read_builtin_options "srv" "db" sample_jdbc_config _ _
                None (Some "select 1") (Some [("fetchsize", PStr "1000")])
                fresh_session eq_refl eq_refl eq_refl Hopts) as [Hsyn Hsql].
  split.
  - exact (proj1 (proj2 (proj2 (proj2 (proj2 Hsql))))).
  - exact (proj2 (proj2 (proj2 (proj2 (proj2 Hsyn))))).
Defined.

(** X11.  A JDBC connector constructed from a config dict, writing with
    caller options that name none of the connector's own keys, gives the
    engine its JDBC URL, the target table as dbtable, the user and
    password of the config and the SQL Server driver class, sets no
    query option, and passes the format jdbc and the write mode. *)
Theorem jdbc_write_builtin_options
    (server database : string) (m : gmap string pyval)
    (syn : AzureSynapseConnector) (sql : AzureSQLConnector)
    (df : DataFrame) (target mode : string) (options : option PyDict.items)
    (s : SparkSession) :
  AzureSynapseConnector_init server database (Some m) = Return syn →
  AzureSQLConnector_init server database (Some m) = Return sql →
  Forall (λ k, options_get options k = None) jdbc_builtin_keys →
  let sent (out : result unit * SparkSession) (url : string) :=
    engine_option out s "url" (Some (PStr url))
    ∧ engine_option out s "dbtable" (Some (PStr target))
    ∧ engine_option out s "user"
        (Some (PyDict.get_default m "user" (PStr EmptyString)))
    ∧ engine_option out s "password"
        (Some (PyDict.get_default m "password" (PStr EmptyString)))
    ∧ engine_option out s "driver"
        (Some (PStr "com.microsoft.sqlserver.jdbc.SQLServerDriver"))
    ∧ engine_option out s "query" None
    ∧ ∃ w, out = (Return (), after_call s (CallSave w None))
           ∧ writer_df w = df ∧ writer_format w = "jdbc"
           ∧ writer_mode w = Some mode ∧ writer_partition_by w = None in
  sent (AzureSynapseConnector_write syn df target mode options s)
       (syn_jdbc_url syn)
  ∧ sent (AzureSQLConnector_write sql df target mode options s)
         (sql_jdbc_url sql).
Proof.
  rewrite synapse_init_Some, sql_init_Some.
  intros [= <-] [= <-] Hopts sent. subst sent. cbv beta.
  unfold AzureSynapseConnector_write, AzureSQLConnector_write.
  rewrite !writer_save_run, !jdbc_writer_eq.
  cbn [syn_jdbc_url sql_jdbc_url
       syn_connection_properties sql_connection_properties].
  split_and!;
    try (eexists _, _; split; [reflexivity|];
         cbn [call_options writer_options]; rewrite !app_assoc;
         (rewrite effective_option_app_keep
            by (apply jdbc_builtin_not_overridden; [done|];
                unfold jdbc_builtin_keys; set_solver));
         reflexivity);
    by eexists.
Qed.

Lemma jdbc_write_builtin_options_witness :
  Forall (λ k, options_get (Some [("batchsize", PStr "500")]) k = None)
    jdbc_builtin_keys
  ∧ engine_option
      (AzureSynapseConnector_write
         (mkSynapse "srv" "db" sample_jdbc_config
            "jdbc:sqlserver://srv:1433;database=db"
            (connection_properties_of sample_jdbc_config))
         sample_df "fact_sales" "append" (Some [("batchsize", PStr "500")])
         fresh_session)
      fresh_session "dbtable" (Some (PStr "fact_sales")).
Proof.
  assert (Forall (λ k, options_get (Some [("batchsize", PStr "500")]) k
                       = None) jdbc_builtin_keys) as Hopts
    by (repeat constructor).
  split; [exact Hopts|].
  exact (proj1 (proj2 (proj1
    (jdbc_write_builtin_options "srv" "db" sample_jdbc_config _
       (mkSQL "srv" "db" sample_jdbc_config
          "jdbc:sqlserver://srv:1433;database=db;encrypt=true;trustServerCertificate=false;hostNameInCertificate=*.database.windows.net;loginTimeout=30"
          (connection_properties_of sample_jdbc_config))
       sample_df "fact_sales" "append" (Some [("batchsize", PStr "500")])
       fresh_session eq_refl eq_refl Hopts)))).
Defined.

(** ** Event Hub stream options *)

(** X12.  When no caller option is named self, [read_stream] hands the
    engine one eventhubs stream reader whose options form a dict (no
    key twice) and are the caller's options laid over the built-in
    pair: for every key, the caller's value if the caller gives one,
    otherwise the connection string for eventhubs.connectionString, the
    JSON offset text for eventhubs.startingPosition, and nothing for
    any other key. *)
Theorem read_stream_merged_options
    (eh : AzureEventHubConnector) (starting_position : string)
    (options : option PyDict.items) (s : SparkSession) :
  options_get options "self" = None →
  ∃ r,
    AzureEventHubConnector_read_stream eh starting_position options s
      = (Return (Loaded r None), after_call s (CallLoad r None))
    ∧ reader_streaming r = true
    ∧ reader_format r = "eventhubs"
    ∧ PyDict.wf (reader_options r)
    ∧ ∀ k,
        effective_option (reader_options r) k =
          match PyDict.get (reverse (options_items options)) k with
          | Some v => Some v
          | None =>
              if decide (k = "eventhubs.connectionString")
              then Some (connection_string eh)
              else if decide (k = "eventhubs.startingPosition")
                   then Some (PStr (starting_position_json starting_position))
                   else None
          end.
Proof.
  intros Hself.
  eexists. split; [by apply read_stream_run|]. cbn [reader_streaming
    reader_format reader_options]. split_and!; [done..| |].
  - apply read_stream_conf_wf.
  - intros k. rewrite effective_option_wf by apply read_stream_conf_wf.
    rewrite read_stream_conf_get.
    destruct (PyDict.get (reverse (options_items options)) k); [done|].
    simpl. repeat case_decide; congruence.
Qed.

Lemma read_stream_merged_options_witness :
  options_get (Some [("eventhubs.startingPosition", PStr "latest")]) "self"
    = None
  ∧ ∃ r,
      AzureEventHubConnector_read_stream
        (mkEventHub "myeventhub" "events" sample_eventhub_config
           (PStr "Endpoint=sb://myeventhub/"))
        "earliest" (Some [("eventhubs.startingPosition", PStr "latest")])
        fresh_session
        = (Return (Loaded r None), after_call fresh_session (CallLoad r None))
      ∧ effective_option (reader_options r) "eventhubs.startingPosition"
        = Some (PStr "latest")
      ∧ effective_option (reader_options r) "eventhubs.connectionString"
        = Some (PStr "Endpoint=sb://myeventhub/").
Proof.
  split; [reflexivity|].
  destruct (read_stream_merged_options
              (mkEventHub "myeventhub" "events" sample_eventhub_config
                 (PStr "Endpoint=sb://myeventhub/"))
              "earliest" (Some [("eventhubs.startingPosition", PStr "latest")])
              fresh_session eq_refl)
    as (r & Hrun & _ & _ & _ & Hk).
  exists r. split; [exact Hrun|]. split.
  - exact (Hk "eventhubs.startingPosition").
  - exact (Hk "eventhubs.connectionString").
Defined.

(** ** Empty arguments *)

(** X13.  An empty options dict is the same as no options in every
    operation that takes options, and an empty partition list is the
    same as none in the Data Lake write: the engine gets the very same
    call. *)
Theorem empty_options_same_as_none
    (blob : AzureBlobConnector) (adls : AzureDataLakeGen2Connector)
    (syn : AzureSynapseConnector) (sql : AzureSQLConnector)
    (eh : AzureEventHubConnector)
    (df : DataFrame) (path format mode target starting_position : string)
    (partition_by : option (list string)) (table query : option string)
    (options : option PyDict.items) (s : SparkSession) :
  AzureBlobConnector_read blob path format (Some []) s
    = AzureBlobConnector_read blob path format None s
  ∧ AzureBlobConnector_write blob df path format mode (Some []) s
    = AzureBlobConnector_write blob df path format mode None s
  ∧ AzureDataLakeGen2Connector_read adls path format (Some []) s
    = AzureDataLakeGen2Connector_read adls path format None s
  ∧ AzureDataLakeGen2Connector_write adls df path format mode partition_by
      (Some []) s
    = AzureDataLakeGen2Connector_write adls df path format mode partition_by
        None s
  ∧ AzureDataLakeGen2Connector_write adls df path format mode (Some [])
      options s
    = AzureDataLakeGen2Connector_write adls df path format mode None
        options s
  ∧ AzureSynapseConnector_read syn table query (Some []) s
    = AzureSynapseConnector_read syn table query None s
  ∧ AzureSynapseConnector_write syn df target mode (Some []) s
    = AzureSynapseConnector_write syn df target mode None s
  ∧ AzureSQLConnector_read sql table query (Some []) s
    = AzureSQLConnector_read sql table query None s
  ∧ AzureSQLConnector_write sql df target mode (Some []) s
    = AzureSQLConnector_write sql df target mode None s
  ∧ AzureEventHubConnector_read_stream eh starting_position (Some []) s
    = AzureEventHubConnector_read_stream eh starting_position None s.
Proof. split_and!; reflexivity. Qed.

(** ** Storage URLs *)

Lemma blob_full_path_inj self : Inj (=) (=) (blob_full_path self).
Proof.
  intros p1 p2 H. unfold blob_full_path in H.
  by repeat apply (inj (String.app _)) in H.
Qed.

Lemma adls_full_path_inj self : Inj (=) (=) (adls_full_path self).
Proof.
  intros p1 p2 H. unfold adls_full_path in H.
  by repeat apply (inj (String.app _)) in H.
Qed.

(** X14.  The URL a storage connector addresses determines the path:
    whatever the sessions, formats and options, two reads of one Blob
    connector (or of one Data Lake connector) hand the engine the same
    URL exactly when they are given the same path, and a Blob read
    never addresses the URL of a Data Lake read, since the schemes
    wasbs and abfss differ. *)
Theorem storage_urls_determine_path
    (blob : AzureBlobConnector) (adls : AzureDataLakeGen2Connector)
    (p1 p2 f1 f2 : string) (o1 o2 : option PyDict.items)
    (s1 s2 : SparkSession) :
  ∃ b1 b2 a1 a2,
    (AzureBlobConnector_read blob p1 f1 o1 s1).2 = after_call s1 b1
    ∧ (AzureBlobConnector_read blob p2 f2 o2 s2).2 = after_call s2 b2
    ∧ (AzureDataLakeGen2Connector_read adls p1 f1 o1 s1).2 = after_call s1 a1
    ∧ (AzureDataLakeGen2Connector_read adls p2 f2 o2 s2).2 = after_call s2 a2
    ∧ (call_path b1 = call_path b2 ↔ p1 = p2)
    ∧ (call_path a1 = call_path a2 ↔ p1 = p2)
    ∧ call_path b1 ≠ call_path a2.
Proof.
  unfold AzureBlobConnector_read, AzureDataLakeGen2Connector_read.
  rewrite !reader_load_run. cbn [snd].
  eexists _, _, _, _. split_and!; [reflexivity..| | |]; cbn [call_path].
  - split; [|by intros ->]. intros H.
    apply (blob_full_path_inj blob). congruence.
  - split; [|by intros ->]. intros H.
    apply (adls_full_path_inj adls). congruence.
  - unfold blob_full_path, adls_full_path. simpl. intros H.
    discriminate H.
Qed.

(** ** Construction followed by use *)

Lemma storage_init_account_key_run account (m : gmap string pyval) k s :
  m !! "account_key" = Some k →
  m !! "auth_type" = None ∨ m !! "auth_type" = Some (PStr "account_key") →
  configure_auth (AzureConnector_init account (Some m))
    (auth_type_of (Some m)) s
  = (Return (),
     mkSpark (<["fs.azure.account.key." +:+ account
                  +:+ ".dfs.core.windows.net" := k]> (spark_conf s))
             (spark_calls s))
  ∧ AzureConnector_init account (Some m) = mkAzureConnector account m.
Proof.
  intros Hk Ha.
  assert (auth_type_of (Some m) = PStr "account_key") as ->.
  { rewrite auth_type_of_eq. simpl. by destruct Ha as [->| ->]. }
  unfold AzureConnector_init. rewrite (or_empty_Some_lookup _ _ _ Hk).
  by rewrite (configure_auth_account_key_eq _ _ k).
Qed.

(** X15.  End to end with an account key: constructing a Blob (or Data
    Lake Gen2) connector and reading a path with it leaves the session
    with the account key set under
    fs.azure.account.key.ACCOUNT.dfs.core.windows.net and with exactly
    one more engine call, a non-streaming load of the wasbs (or abfss)
    URL in the given format carrying exactly the caller's options. *)
Theorem storage_construct_then_read
    (account container : string) (m : gmap string pyval) (k : pyval)
    (path format : string) (options : option PyDict.items)
    (s : SparkSession) :
  m !! "account_key" = Some k →
  m !! "auth_type" = None ∨ m !! "auth_type" = Some (PStr "account_key") →
  let conf' := <["fs.azure.account.key." +:+ account
                   +:+ ".dfs.core.windows.net" := k]> (spark_conf s) in
  let r := mkReader false format (options_items options) in
  let wasbs := "wasbs://" +:+ container +:+ "@" +:+ account
                 +:+ ".blob.core.windows.net/" +:+ path in
  let abfss := "abfss://" +:+ container +:+ "@" +:+ account
                 +:+ ".dfs.core.windows.net/" +:+ path in
  (self ← AzureBlobConnector_init account container (Some m);
   AzureBlobConnector_read self path format options) s
    = (Return (Loaded r (Some wasbs)),
       mkSpark conf' (spark_calls s ++ [CallLoad r (Some wasbs)]))
  ∧ (self ← AzureDataLakeGen2Connector_init account container (Some m);
     AzureDataLakeGen2Connector_read self path format options) s
    = (Return (Loaded r (Some abfss)),
       mkSpark conf' (spark_calls s ++ [CallLoad r (Some abfss)])).
Proof.
  intros Hk Ha conf' r wasbs abfss.
  destruct (storage_init_account_key_run account m k s Hk Ha) as [Hrun Hinit].
  unfold mbind, M_bind.
  rewrite blob_init_run, adls_init_run, Hrun, Hinit.
  unfold AzureBlobConnector_read, AzureDataLakeGen2Connector_read.
  rewrite !reader_load_run, !reader_apply_options_eq. done.
Qed.

Lemma storage_construct_then_read_witness :
  sample_storage_config !! "account_key" = Some (PStr "s3cr3t")
  ∧ (sample_storage_config !! "auth_type" = None
     ∨ sample_storage_config !! "auth_type" = Some (PStr "account_key"))
  ∧ (self ← AzureBlobConnector_init "acct" "raw"
              (Some sample_storage_config);
     AzureBlobConnector_read self "in/sales.parquet" "parquet" None)
      fresh_session
    = (Return (Loaded (mkReader false "parquet" [])
                 (Some "wasbs://raw@acct.blob.core.windows.net/in/sales.parquet")),
       mkSpark (<["fs.azure.account.key.acct.dfs.core.windows.net"
                    := PStr "s3cr3t"]> ∅)
               [CallLoad (mkReader false "parquet" [])
                  (Some "wasbs://raw@acct.blob.core.windows.net/in/sales.parquet")]).
Proof.
  split; [reflexivity|]. split; [by left|].
  exact (proj1 (storage_construct_then_read "acct" "raw"
                  sample_storage_config (PStr "s3cr3t") "in/sales.parquet"
                  "parquet" None fresh_session eq_refl (or_introl eq_refl))).
Defined.

(** X16.  With auth type sas_token, the storage constructors build the
    SAS key from the container entry of the config and not from their
    own container argument: the key set is
    fs.azure.sas.C.ACCOUNT.blob.core.windows.net for the config's
    container C, while the connector returned (and so its URLs) keeps
    the container argument. *)
Theorem storage_init_sas_token
    (account container : string) (m : gmap string pyval) (t c : pyval)
    (s : SparkSession) :
  m !! "auth_type" = Some (PStr "sas_token") →
  m !! "sas_token" = Some t →
  m !! "container" = Some c →
  let s' := mkSpark (<["fs.azure.sas." +:+ py_str c +:+ "." +:+ account
                         +:+ ".blob.core.windows.net" := t]> (spark_conf s))
                    (spark_calls s) in
  AzureBlobConnector_init account container (Some m) s
    = (Return (mkBlob (mkAzureConnector account m) container), s')
  ∧ AzureDataLakeGen2Connector_init account container (Some m) s
    = (Return (mkDataLake (mkAzureConnector account m) container), s').
Proof.
  intros Ha Ht Hc s'. rewrite blob_init_run, adls_init_run.
  assert (auth_type_of (Some m) = PStr "sas_token") as ->.
  { rewrite auth_type_of_eq. simpl. by rewrite Ha. }
  unfold AzureConnector_init. rewrite (or_empty_Some_lookup _ _ _ Ht).
  rewrite (configure_auth_sas_token_eq _ _ t) by done.
  cbn [config]. by rewrite Hc.
Qed.

Lemma storage_init_sas_token_witness :
  let m : gmap string pyval :=
    {[ "auth_type" := PStr "sas_token"; "sas_token" := PStr "sv=1";
       "container" := PStr "other" ]} in
  m !! "auth_type" = Some (PStr "sas_token")
  ∧ m !! "sas_token" = Some (PStr "sv=1")
  ∧ m !! "container" = Some (PStr "other")
  ∧ AzureBlobConnector_init "acct" "raw" (Some m) fresh_session
    = (Return (mkBlob (mkAzureConnector "acct" m) "raw"),
       mkSpark (<["fs.azure.sas.other.acct.blob.core.windows.net"
                    := PStr "sv=1"]> ∅) []).
Proof.
  intros m. split; [reflexivity|]. split; [reflexivity|].
  split; [reflexivity|].
  exact (proj1 (storage_init_sas_token "acct" "raw" m (PStr "sv=1")
                  (PStr "other") fresh_session eq_refl eq_refl eq_refl)).
Defined.
